(** * Connectivity and location commands of the Android driver

    A shallow embedding of [lib/commands/network.js]: the commands are
    state-passing computations over the driver object ([this]), whose
    device bridge ([this.adb]) is an arbitrary implementation of the
    [Device] interface.  Every call made on the bridge and every log line
    is appended to a journal, so that "is queried", "is written" and
    "is logged" are statements about that journal. *)

From Stdlib Require Import ZArith Bool List Ascii String.
From Stdlib Require Import Floats.SpecFloat.
From stdpp Require Import base option list strings gmap.

Local Open Scope string_scope.
Local Open Scope list_scope.
Local Open Scope Z_scope.

(** ** JavaScript values *)

(** Numbers are IEEE 754 binary64 values. *)
Definition prec : Z := 53.
Definition emax : Z := 1024.

Inductive Val :=
| VUndefined
| VNull
| VBool (b : bool)
| VNum (x : spec_float)
| VStr (s : string).

(** [ToBoolean]: [undefined], [null], [false], [NaN], [+0], [-0] and the
    empty string are falsy. *)
Definition numberTruthy (x : spec_float) : bool :=
  match x with
  | S754_zero _ => false
  | S754_nan => false
  | _ => true
  end.

Definition Boolean (v : Val) : bool :=
  match v with
  | VUndefined => false
  | VNull => false
  | VBool b => b
  | VNum x => numberTruthy x
  | VStr s => negb (String.eqb s "")
  end.

(** [a === b] *)
Definition strictEquals (a b : Val) : bool :=
  match a, b with
  | VUndefined, VUndefined => true
  | VNull, VNull => true
  | VBool x, VBool y => Bool.eqb x y
  | VNum x, VNum y => SFeqb x y
  | VStr x, VStr y => String.eqb x y
  | _, _ => false
  end.

(** [_.isUndefined] *)
Definition isUndefined (v : Val) : bool :=
  match v with VUndefined => true | _ => false end.

(** Bit operators work on the 32-bit two's complement image of a number. *)
Definition toInt32 (z : Z) : Z :=
  let m := z mod 2 ^ 32 in
  if 2 ^ 31 <=? m then m - 2 ^ 32 else m.

Definition bitand (a b : Z) : Z := Z.land (toInt32 a) (toInt32 b).
Definition bitor (a b : Z) : Z := Z.lor (toInt32 a) (toInt32 b).
Definition bitnot (a : Z) : Z := Z.lnot (toInt32 a).

(** [a < b] on integers. *)
Definition lessThan (a b : Z) : bool := a <? b.

(** ** Errors and completions *)

Inductive Error :=
| InvalidArgumentError (message : string)
| NotYetImplementedError
| TypeError (message : string)
| DeviceError (message : string).

Definition message (e : Error) : string :=
  match e with
  | InvalidArgumentError m => m
  | NotYetImplementedError => "Method has not yet been implemented"
  | TypeError m => m
  | DeviceError m => m
  end.

Inductive Completion (A : Type) :=
| Ret (a : A)
| Throw (e : Error).
Arguments Ret {A} a.
Arguments Throw {A} e.

(** ** Constants of the module *)

Definition AIRPLANE_MODE_MASK : Z := 1.
Definition WIFI_MASK : Z := 2.
Definition DATA_MASK : Z := 4.
(** [Number.MIN_VALUE], the least positive binary64 value, 2^-1074. *)
Definition GEO_EPSILON : spec_float := S754_finite false 1 (-1074).
Definition WIFI_KEY_NAME : string := "wifi".
Definition DATA_KEY_NAME : string := "data".
Definition AIRPLANE_MODE_KEY_NAME : string := "airplaneMode".

(** ** The collaborators *)

(** What [adb.getGeoLocation] resolves to: three raw coordinate values. *)
Record RawLocation := {
  raw_latitude : Val;
  raw_longitude : Val;
  raw_altitude : Val
}.

(** What the geolocation commands return. *)
Record GeoLocation := {
  latitude : spec_float;
  longitude : spec_float;
  altitude : spec_float
}.

(** The calls this module makes on the device bridge and on the bootstrap
    handle, indexed by the type of the value their promise resolves to. *)
Inductive Call : Type → Type :=
| IsAirplaneModeOn : Call bool
| IsWifiOn : Call bool
| IsDataOn : Call bool
| GetApiLevel : Call Z
| SetAirplaneMode (on : Val) : Call unit
| BroadcastAirplaneMode (on : Val) : Call unit
| SetWifiState (on : Val) (isEmulator : bool) : Call unit
| SetDataState (on : Val) (isEmulator : bool) : Call unit
| SetWifiAndData (wifi data : Val) (isEmulator : bool) : Call unit
| Restart : Call unit
| BootstrapStart (appPackage disableAndroidWatchers acceptSslCerts : Val) : Call unit
| SetGeoLocation (location : RawLocation) (isEmulator : bool) : Call unit
| GetGeoLocation : Call RawLocation
| RefreshGeoLocationCache (timeoutMs : Val) : Call unit.

(** A device answers a call with a completion and moves to a new state. *)
Class Device (D : Type) := respond : ∀ {A : Type}, Call A → D → Completion A * D.

Inductive Level := Info | Warn.

Inductive Event :=
| Called {A : Type} (c : Call A)
| Logged (level : Level) (msg : string).

Record Bootstrap := { ignoreUnexpectedShutdown : bool }.

Record DriverOpts := {
  appPackage : Val;
  disableAndroidWatchers : Val;
  acceptSslCerts : Val
}.

(** The driver object: [this.adb], [this.bootstrap] (absent when [None]),
    [this.isEmulator()], [this.opts], and the journal. *)
Record Driver (D : Type) := {
  adb : D;
  bootstrap : option Bootstrap;
  isEmulator : bool;
  opts : DriverOpts;
  journal : list Event
}.
Arguments adb {D} _.
Arguments bootstrap {D} _.
Arguments isEmulator {D} _.
Arguments opts {D} _.
Arguments journal {D} _.

Definition with_adb {D} (w : Driver D) (d : D) : Driver D :=
  {| adb := d; bootstrap := bootstrap w; isEmulator := isEmulator w;
     opts := opts w; journal := journal w |}.

Definition with_bootstrap {D} (w : Driver D) (b : option Bootstrap) : Driver D :=
  {| adb := adb w; bootstrap := b; isEmulator := isEmulator w;
     opts := opts w; journal := journal w |}.

Definition record {D} (w : Driver D) (ev : Event) : Driver D :=
  {| adb := adb w; bootstrap := bootstrap w; isEmulator := isEmulator w;
     opts := opts w; journal := journal w ++ [ev] |}.

(** ** Asynchronous code as state passing *)

Definition M (D A : Type) : Type := Driver D → Completion A * Driver D.

Definition ret {D A} (a : A) : M D A := λ w, (Ret a, w).

Definition throw {D A} (e : Error) : M D A := λ w, (Throw e, w).

Definition bind {D A B} (m : M D A) (k : A → M D B) : M D B :=
  λ w, match m w with
       | (Ret a, w1) => k a w1
       | (Throw e, w1) => (Throw e, w1)
       end.

Declare Scope js_scope.
Delimit Scope js_scope with js.
Notation "x <- m ;; k" := (bind m (λ x, k))
  (at level 100, m at next level, right associativity) : js_scope.
Notation "m ;; k" := (bind m (λ _, k))
  (at level 100, right associativity) : js_scope.
Local Open Scope js_scope.

(** [try { body } finally { cleanup }] *)
Definition try_finally {D A} (body : M D A) (cleanup : M D unit) : M D A :=
  λ w, match body w with
       | (r, w1) =>
           match cleanup w1 with
           | (Ret _, w2) => (r, w2)
           | (Throw e, w2) => (Throw e, w2)
           end
       end.

(** [try { body } catch (e) { handler }] *)
Definition try_catch {D A} (body : M D A) (handler : Error → M D A) : M D A :=
  λ w, match body w with
       | (Ret a, w1) => (Ret a, w1)
       | (Throw e, w1) => handler e w1
       end.

(** ** [parseFloat]

    [parseFloat(v)] converts [v] to a string, skips leading white space and
    reads the longest prefix that is a decimal literal:
    an optional sign, then [Infinity] or digits with an optional fraction
    and an optional exponent.  The result is the binary64 value nearest to
    the literal (ties to even), or [NaN] when no prefix is a literal.

    A string is the sequence of the bytes of its UTF-8 form.  The white
    space [parseFloat] skips is that of [StrWhiteSpaceChar]: tab, line
    feed, vertical tab, form feed, carriage return and space among the
    ASCII characters; U+00A0 in two bytes; U+1680, U+2000 to U+200A,
    U+2028, U+2029, U+202F, U+205F, U+3000 and U+FEFF in three bytes. *)

Definition byteOf (c : ascii) : Z := Z.of_nat (nat_of_ascii c).

Definition isWhiteSpace (c : ascii) : bool :=
  let n := byteOf c in
  ((9 <=? n) && (n <=? 13)) || (n =? 32).

(** U+00A0 is [C2 A0]. *)
Definition isWhiteSpace2 (c1 c2 : ascii) : bool :=
  (byteOf c1 =? 194) && (byteOf c2 =? 160).

(** U+1680 is [E1 9A 80]; U+2000 to U+200A, U+2028, U+2029 and U+202F are
    [E2 80 80] to [E2 80 8A], [E2 80 A8], [E2 80 A9] and [E2 80 AF];
    U+205F is [E2 81 9F]; U+3000 is [E3 80 80]; U+FEFF is [EF BB BF]. *)
Definition isWhiteSpace3 (c1 c2 c3 : ascii) : bool :=
  let b1 := byteOf c1 in
  let b2 := byteOf c2 in
  let b3 := byteOf c3 in
  ((b1 =? 225) && (b2 =? 154) && (b3 =? 128)) ||
  ((b1 =? 226) && (b2 =? 128) &&
   (((128 <=? b3) && (b3 <=? 138)) || (b3 =? 168) || (b3 =? 169) || (b3 =? 175))) ||
  ((b1 =? 226) && (b2 =? 129) && (b3 =? 159)) ||
  ((b1 =? 227) && (b2 =? 128) && (b3 =? 128)) ||
  ((b1 =? 239) && (b2 =? 187) && (b3 =? 191)).

Fixpoint trimStart (s : string) : string :=
  match s with
  | String c r =>
      if isWhiteSpace c then trimStart r
      else
        match r with
        | String c2 r2 =>
            if isWhiteSpace2 c c2 then trimStart r2
            else
              match r2 with
              | String c3 r3 => if isWhiteSpace3 c c2 c3 then trimStart r3 else s
              | EmptyString => s
              end
        | EmptyString => s
        end
  | EmptyString => s
  end.

Definition digitValue (c : ascii) : option Z :=
  let n := Z.of_nat (nat_of_ascii c) in
  if (48 <=? n) && (n <=? 57) then Some (n - 48) else None.

(** Reads a maximal run of decimal digits: the number read so far, how
    many digits were read, and what is left. *)
Fixpoint readDigits (s : string) (acc count : Z) : Z * Z * string :=
  match s with
  | String c r =>
      match digitValue c with
      | Some d => readDigits r (10 * acc + d) (count + 1)
      | None => (acc, count, s)
      end
  | EmptyString => (acc, count, s)
  end.

Definition readSign (s : string) : bool * string :=
  match s with
  | String "-" r => (true, r)
  | String "+" r => (false, r)
  | _ => (false, s)
  end.

(** The exponent part [e±ddd]; it counts only when a digit follows. *)
Definition readExponent (s : string) : Z :=
  match s with
  | String c r =>
      if Ascii.eqb c "e" || Ascii.eqb c "E" then
        let '(neg, r1) := readSign r in
        let '(v, n, _) := readDigits r1 0 0 in
        if n =? 0 then 0 else if neg then - v else v
      else 0
  | EmptyString => 0
  end.

(** The binary64 value nearest to [m * 10^e], for [m >= 0]. *)
Definition decimalToNumber (neg : bool) (m e : Z) : spec_float :=
  match m with
  | Zpos p =>
      if 0 <=? e then
        match m * 10 ^ e with
        | Zpos n => binary_round prec emax neg n 0
        | _ => S754_nan
        end
      else
        let d := 10 ^ (- e) in
        let s := Z.max 0 (Zdigits2 d + 55 - Zdigits2 m) in
        let q := (m * 2 ^ s) / d in
        let r := (m * 2 ^ s) mod d in
        let l := if r =? 0 then loc_Exact else loc_Inexact (2 * r ?= d) in
        binary_round_aux prec emax neg q (- s) l
  | _ => S754_zero neg
  end.

Definition parseFloatString (s : string) : spec_float :=
  let '(neg, s1) := readSign (trimStart s) in
  if String.prefix "Infinity" s1 then S754_infinity neg
  else
    let '(int, nint, s2) := readDigits s1 0 0 in
    let '(m, nfrac, s3) :=
      match s2 with
      | String "." r => let '(m, n, s3) := readDigits r int 0 in (m, n, s3)
      | _ => (int, 0, s2)
      end in
    if nint + nfrac =? 0 then S754_nan
    else
      (* a lone "." after the digits is part of the literal and changes nothing *)
      decimalToNumber neg m (readExponent s3 - nfrac).

(** On a number, [parseFloat] reads back the decimal form of the number,
    which denotes the number itself; the sign of zero is lost in between. *)
Definition parseFloat (v : Val) : spec_float :=
  match v with
  | VStr s => parseFloatString s
  | VNum (S754_zero _) => S754_zero false
  | VNum x => x
  | VUndefined | VNull | VBool _ => S754_nan
  end.

(** [x || y] on numbers. *)
Definition orElse (x y : spec_float) : spec_float :=
  if numberTruthy x then x else y.

(** ** The commands *)

Inductive ServicesOption :=
| ServicesDefault
| ServicesOne (name : string)
| ServicesMany (names : list string).

Record SetConnectivityOptions := {
  wifi : Val;
  data : Val;
  airplaneMode : Val
}.

(** The [services] option: all three names when it is absent, a single
    name taken as a list of one. *)
Definition servicesOf (opts : ServicesOption) : list string :=
  match opts with
  | ServicesDefault => [WIFI_KEY_NAME; DATA_KEY_NAME; AIRPLANE_MODE_KEY_NAME]
  | ServicesOne name => [name]
  | ServicesMany names => names
  end.

(** [services.includes(k)] *)
Definition includes (services : list string) (k : string) : bool :=
  existsb (String.eqb k) services.

(** [_.fromPairs]: a later pair replaces an earlier one with the same key. *)
Definition fromPairs (pairs : list (string * Val)) : gmap string Val :=
  fold_left (λ o kv, <[kv.1 := kv.2]> o) pairs ∅.

(** [o[k]] on an object read as a map: an absent key reads [undefined]. *)
Definition getProperty (o : gmap string Val) (k : string) : Val :=
  default VUndefined (o !! k).

Definition mapCompletion {A B} (f : A → B) (p : Completion A) : Completion B :=
  match p with
  | Ret a => Ret (f a)
  | Throw e => Throw e
  end.

Fixpoint firstRejection {A} (ps : list (Completion A)) : option Error :=
  match ps with
  | [] => None
  | Ret _ :: rest => firstRejection rest
  | Throw e :: _ => Some e
  end.

(** The names of the properties an object literal inherits from
    [Object.prototype]. *)
Definition objectPrototypeKeys : list string :=
  ["constructor"; "__defineGetter__"; "__defineSetter__"; "hasOwnProperty";
   "__lookupGetter__"; "__lookupSetter__"; "isPrototypeOf"; "propertyIsEnumerable";
   "toString"; "valueOf"; "__proto__"; "toLocaleString"].

(** What [o[k]] finds in an object literal [o]: an own property, a
    property inherited from [Object.prototype] (a function, or the
    prototype itself for [__proto__]), or nothing, which reads
    [undefined]. *)
Inductive Property (A : Type) :=
| Own (a : A)
| Inherited
| Absent.
Arguments Own {A} a.
Arguments Inherited {A}.
Arguments Absent {A}.

(** [statePromises[k]]: the object has three own keys. *)
Fixpoint lookupKey {A} (o : list (string * A)) (k : string) : Property A :=
  match o with
  | [] => if existsb (String.eqb k) objectPrototypeKeys then Inherited else Absent
  | (k', a) :: rest => if String.eqb k k' then Own a else lookupKey rest k
  end.

(** The error of calling [.value()] on [undefined]. *)
Definition noPromise : Error :=
  TypeError "Cannot read properties of undefined (reading 'value')".

(** The error of calling [.value()] on an inherited property, which has
    no [value] method. *)
Definition notCallable : Error :=
  TypeError "statePromises[k].value is not a function".

(** Comparing a promise object with a number converts it to [NaN]. *)
Definition promiseLessThan {A} (p : Completion A) (n : Z) : bool := false.

Section Commands.
Context {D : Type} `{!Device D}.

Definition log (level : Level) (msg : string) : M D unit :=
  λ w, (Ret tt, record w (Logged level msg)).

(** Invoking a bridge method starts the call at once; the promise it
    returns is settled with the device's answer. *)
Definition start {A} (c : Call A) : M D (Completion A) :=
  λ w, match respond c (adb w) with
       | (r, d) => (Ret r, record (with_adb w d) (Called c))
       end.

(** [await p] *)
Definition await {A} (p : Completion A) : M D A :=
  match p with
  | Ret a => ret a
  | Throw e => throw e
  end.

(** [await this.adb.method(...)] *)
Definition call {A} (c : Call A) : M D A :=
  p <- start c ;; await p.

Definition getEmulator : M D bool := λ w, (Ret (isEmulator w), w).

Definition getOpts : M D DriverOpts := λ w, (Ret (opts w), w).

Definition getBootstrap : M D (option Bootstrap) := λ w, (Ret (bootstrap w), w).

(** [this.bootstrap.ignoreUnexpectedShutdown = v] *)
Definition setIgnoreUnexpectedShutdown (v : bool) : M D unit :=
  λ w, match bootstrap w with
       | Some _ => (Ret tt, with_bootstrap w (Some {| ignoreUnexpectedShutdown := v |}))
       | None => (Throw (TypeError "Cannot set properties of undefined"), w)
       end.

(** [await this.bootstrap.start(...)] *)
Definition bootstrapStart (a b c : Val) : M D unit :=
  bs <- getBootstrap ;;
  match bs with
  | Some _ => call (BootstrapStart a b c)
  | None => throw (TypeError "Cannot read properties of undefined")
  end.

(** An element of an array handed to [B.all]: a promise already started,
    or a function, which [B.all] takes as a plain value and never calls. *)
Inductive Element :=
| Promise (p : Completion unit)
| Function (body : M D unit).

Definition promisesOf (items : list Element) : list (Completion unit) :=
  omap (λ it, match it with Promise p => Some p | Function _ => None end) items.

(** [await B.all(ps)]: rejects when one of the promises is rejected. *)
Definition B_all {A} (ps : list (Completion A)) : M D unit :=
  match firstRejection ps with
  | Some e => throw e
  | None => ret tt
  end.

Fixpoint mapM {A B} (f : A → M D B) (l : list A) : M D (list B) :=
  match l with
  | [] => ret []
  | a :: rest => b <- f a ;; bs <- mapM f rest ;; ret (b :: bs)
  end.

(** [p.value()] where [p] is what [statePromises[k]] evaluates to. *)
Definition value (p : Property (Completion Val)) : M D Val :=
  match p with
  | Own (Ret v) => ret v
  | Own (Throw _) =>
      throw (TypeError "cannot get fulfillment value of a non-fulfilled promise")
  | Inherited => throw notCallable
  | Absent => throw noPromise
  end.

(** *** [wrapBootstrapDisconnect] *)

Definition wrapBootstrapDisconnect (wrapped : M D Val) : M D Val :=
  bs <- getBootstrap ;;
  match bs with
  | None => wrapped
  | Some _ =>
      setIgnoreUnexpectedShutdown true ;;
      try_finally
        (wrapped ;;
         call Restart ;;
         o <- getOpts ;;
         bootstrapStart (appPackage o) (disableAndroidWatchers o) (acceptSslCerts o) ;;
         ret VUndefined)
        (setIgnoreUnexpectedShutdown false)
  end.

(** *** [isWifiOn], [setWifiState] *)

Definition isWifiOn : M D bool := call IsWifiOn.

Definition setWifiState (wifi : Val) : M D unit :=
  emu <- getEmulator ;; call (SetWifiState wifi emu).

(** *** [getNetworkConnection] *)

Definition getNetworkConnection : M D Z :=
  log Info "Getting network connection" ;;
  airplaneModeOn <- call IsAirplaneModeOn ;;
  let connection := if airplaneModeOn then AIRPLANE_MODE_MASK else 0 in
  if negb airplaneModeOn then
    wifiOn <- isWifiOn ;;
    let connection := bitor connection (if wifiOn then WIFI_MASK else 0) in
    dataOn <- call IsDataOn ;;
    let connection := bitor connection (if dataOn then DATA_MASK else 0) in
    ret connection
  else
    ret connection.

(** *** [mobileGetConnectivity] *)

Definition mobileGetConnectivity (opts : ServicesOption) : M D (gmap string Val) :=
  let services := servicesOf opts in
  pWifi <- (if includes services WIFI_KEY_NAME then ret (Ret VUndefined)
            else p <- start IsWifiOn ;; ret (mapCompletion VBool p)) ;;
  pData <- (if includes services DATA_KEY_NAME then ret (Ret VUndefined)
            else p <- start IsDataOn ;; ret (mapCompletion VBool p)) ;;
  pAirplaneMode <- (if includes services AIRPLANE_MODE_KEY_NAME then ret (Ret VUndefined)
                    else p <- start IsAirplaneModeOn ;; ret (mapCompletion VBool p)) ;;
  let statePromises :=
    [("wifi", pWifi); ("data", pData); ("airplaneMode", pAirplaneMode)] in
  B_all (map snd statePromises) ;;
  pairs <- mapM (λ k, v <- value (lookupKey statePromises k) ;; ret (k, v)) services ;;
  ret (fromPairs pairs).

(** *** [mobileSetConnectivity] *)

Definition mobileSetConnectivity (opts : SetConnectivityOptions) : M D unit :=
  let wifi := wifi opts in
  let data := data opts in
  let airplaneMode := airplaneMode opts in
  if forallb isUndefined [wifi; data; airplaneMode] then
    throw (InvalidArgumentError
      "Either one of ['wifi', 'data', 'airplaneMode'] options must be provided")
  else
    currentState <- mobileGetConnectivity (ServicesMany (
      (if isUndefined wifi then [] else [WIFI_KEY_NAME]) ++
      (if isUndefined data then [] else [DATA_KEY_NAME]) ++
      (if isUndefined airplaneMode then [] else [AIRPLANE_MODE_KEY_NAME]))) ;;
    let setters := [] in
    setters <- (if negb (isUndefined wifi) &&
                   negb (strictEquals (getProperty currentState "wifi") (VBool (Boolean wifi)))
                then emu <- getEmulator ;;
                     p <- start (SetWifiState wifi emu) ;;
                     ret (setters ++ [Promise p])
                else ret setters) ;;
    setters <- (if negb (isUndefined data) &&
                   negb (strictEquals (getProperty currentState "data") (VBool (Boolean data)))
                then emu <- getEmulator ;;
                     p <- start (SetDataState data emu) ;;
                     ret (setters ++ [Promise p])
                else ret setters) ;;
    setters <- (if negb (isUndefined airplaneMode) &&
                   negb (strictEquals (getProperty currentState "airplaneMode")
                                      (VBool (Boolean airplaneMode)))
                then ret (setters ++ [Function (
                       call (SetAirplaneMode airplaneMode) ;;
                       level <- start GetApiLevel ;;
                       if promiseLessThan level 30 then
                         call (BroadcastAirplaneMode airplaneMode)
                       else ret tt)])
                else ret setters) ;;
    match setters with
    | [] => ret tt
    | _ => B_all (promisesOf setters)
    end.

(** *** [setNetworkConnection] *)

Definition enabledOrDisabled (b : bool) : string :=
  if b then "enabled" else "disabled".

Definition setNetworkConnection (type : Z) : M D Z :=
  log Info "Setting network connection" ;;
  let shouldEnableAirplaneMode := negb (bitand type AIRPLANE_MODE_MASK =? 0) in
  let shouldEnableWifi := negb (bitand type WIFI_MASK =? 0) in
  let shouldEnableDataConnection := negb (bitand type DATA_MASK =? 0) in
  currentState <- getNetworkConnection ;;
  let isAirplaneModeEnabled := negb (bitand currentState AIRPLANE_MODE_MASK =? 0) in
  let isWiFiEnabled := negb (bitand currentState WIFI_MASK =? 0) in
  let isDataEnabled := negb (bitand currentState DATA_MASK =? 0) in
  (if negb (Bool.eqb shouldEnableAirplaneMode isAirplaneModeEnabled) then
     wrapBootstrapDisconnect (
       call (SetAirplaneMode (VBool shouldEnableAirplaneMode)) ;;
       ret VUndefined) ;;
     wrapBootstrapDisconnect (
       level <- call GetApiLevel ;;
       (if lessThan level 30 then
          call (BroadcastAirplaneMode (VBool shouldEnableAirplaneMode))
        else ret tt) ;;
       ret VUndefined) ;;
     ret tt
   else
     log Info (String.append "Not changing airplane mode, since it is already "
                             (enabledOrDisabled shouldEnableAirplaneMode))) ;;
  if Bool.eqb shouldEnableWifi isWiFiEnabled &&
     Bool.eqb shouldEnableDataConnection isDataEnabled then
    log Info "Not changing data connection/Wi-Fi states, since they are already set to expected values" ;;
    airplaneModeOn <- call IsAirplaneModeOn ;;
    if airplaneModeOn then
      ret (bitor AIRPLANE_MODE_MASK currentState)
    else
      ret (bitand (bitnot AIRPLANE_MODE_MASK) currentState)
  else
    wrapBootstrapDisconnect (
      (if negb (Bool.eqb shouldEnableWifi isWiFiEnabled) then
         setWifiState (VBool shouldEnableWifi)
       else
         log Info (String.append "Not changing Wi-Fi state, since it is already "
                                 (enabledOrDisabled shouldEnableWifi))) ;;
      (if shouldEnableAirplaneMode then
         log Info "Not changing data connection state, because airplane mode is enabled"
       else if Bool.eqb shouldEnableDataConnection isDataEnabled then
         log Info (String.append "Not changing data connection state, since it is already "
                                 (enabledOrDisabled shouldEnableDataConnection))
       else
         emu <- getEmulator ;;
         call (SetDataState (VBool shouldEnableDataConnection) emu)) ;;
      ret VUndefined) ;;
    getNetworkConnection.

(** *** [toggleData], [toggleWiFi], [toggleFlightMode] *)

Definition onOrOff (b : bool) : string := if b then "on" else "off".

Definition toggleData : M D unit :=
  dataOn <- call IsDataOn ;;
  let data := negb dataOn in
  log Info (String.append "Turning network data " (onOrOff data)) ;;
  wrapBootstrapDisconnect (
    emu <- getEmulator ;;
    call (SetWifiAndData VUndefined (VBool data) emu) ;;
    ret VUndefined) ;;
  ret tt.

Definition toggleWiFi : M D unit :=
  wifiOn <- call IsWifiOn ;;
  let wifi := negb wifiOn in
  log Info (String.append "Turning WiFi " (onOrOff wifi)) ;;
  wrapBootstrapDisconnect (
    emu <- getEmulator ;;
    call (SetWifiAndData (VBool wifi) VUndefined emu) ;;
    ret VUndefined) ;;
  ret tt.

Definition toggleFlightMode : M D unit :=
  airplaneModeOn <- call IsAirplaneModeOn ;;
  let flightMode := negb airplaneModeOn in
  log Info (String.append "Turning flight mode " (onOrOff flightMode)) ;;
  wrapBootstrapDisconnect (
    call (SetAirplaneMode (VBool flightMode)) ;;
    ret VUndefined) ;;
  wrapBootstrapDisconnect (
    level <- call GetApiLevel ;;
    (if lessThan level 30 then call (BroadcastAirplaneMode (VBool flightMode)) else ret tt) ;;
    ret VUndefined) ;;
  ret tt.

(** *** [getGeoLocation], [setGeoLocation], [mobileRefreshGpsCache] *)

Definition getGeoLocation : M D GeoLocation :=
  raw <- call GetGeoLocation ;;
  ret {| latitude := orElse (parseFloat (raw_latitude raw)) GEO_EPSILON;
         longitude := orElse (parseFloat (raw_longitude raw)) GEO_EPSILON;
         altitude := orElse (parseFloat (raw_altitude raw)) GEO_EPSILON |}.

Definition setGeoLocation (location : RawLocation) : M D GeoLocation :=
  emu <- getEmulator ;;
  call (SetGeoLocation location emu) ;;
  try_catch getGeoLocation (λ e,
    log Warn (String.append "Could not get the current geolocation info: " (message e)) ;;
    log Warn "Returning the default zero'ed values" ;;
    ret {| latitude := GEO_EPSILON;
           longitude := GEO_EPSILON;
           altitude := GEO_EPSILON |}).

Definition mobileRefreshGpsCache (timeoutMs : Val) : M D unit :=
  call (RefreshGeoLocationCache timeoutMs).

End Commands.

(** ** Reading the journal *)

Definition methodName {A} (c : Call A) : string :=
  match c with
  | IsAirplaneModeOn => "isAirplaneModeOn"
  | IsWifiOn => "isWifiOn"
  | IsDataOn => "isDataOn"
  | GetApiLevel => "getApiLevel"
  | SetAirplaneMode _ => "setAirplaneMode"
  | BroadcastAirplaneMode _ => "broadcastAirplaneMode"
  | SetWifiState _ _ => "setWifiState"
  | SetDataState _ _ => "setDataState"
  | SetWifiAndData _ _ _ => "setWifiAndData"
  | Restart => "restart"
  | BootstrapStart _ _ _ => "start"
  | SetGeoLocation _ _ => "setGeoLocation"
  | GetGeoLocation => "getGeoLocation"
  | RefreshGeoLocationCache _ => "refreshGeoLocationCache"
  end.

(** The bridge method an event invokes, if it is a call. *)
Definition invoked (ev : Event) : option string :=
  match ev with
  | Called c => Some (methodName c)
  | Logged _ _ => None
  end.

Definition invokes (name : string) (ev : Event) : bool :=
  match invoked ev with
  | Some n => String.eqb n name
  | None => false
  end.

(** The methods that change the connectivity state of the device. *)
Definition stateWrites : list string :=
  ["setAirplaneMode"; "broadcastAirplaneMode"; "setWifiState"; "setDataState"].

Definition isStateWrite (ev : Event) : bool :=
  existsb (λ name, invokes name ev) stateWrites.

(** The bridge methods invoked along a journal, in order. *)
Definition invocations (evs : list Event) : list string := omap invoked evs.

(** ** A reference device

    A phone keeps the three toggles as independent booleans, answers
    every read from them and applies every write to them; none of its
    methods fails. *)

Record Phone := {
  airplaneModeOn : bool;
  wifiOn : bool;
  dataOn : bool;
  apiLevel : Z;
  location : RawLocation
}.

Definition phoneAnswer {A} (c : Call A) (d : Phone) : A * Phone :=
  match c in Call A return A * Phone with
  | IsAirplaneModeOn => (airplaneModeOn d, d)
  | IsWifiOn => (wifiOn d, d)
  | IsDataOn => (dataOn d, d)
  | GetApiLevel => (apiLevel d, d)
  | SetAirplaneMode on =>
      (tt, {| airplaneModeOn := Boolean on; wifiOn := wifiOn d; dataOn := dataOn d;
              apiLevel := apiLevel d; location := location d |})
  | BroadcastAirplaneMode _ => (tt, d)
  | SetWifiState on _ =>
      (tt, {| airplaneModeOn := airplaneModeOn d; wifiOn := Boolean on; dataOn := dataOn d;
              apiLevel := apiLevel d; location := location d |})
  | SetDataState on _ =>
      (tt, {| airplaneModeOn := airplaneModeOn d; wifiOn := wifiOn d; dataOn := Boolean on;
              apiLevel := apiLevel d; location := location d |})
  | SetWifiAndData wifi data _ =>
      (tt, {| airplaneModeOn := airplaneModeOn d;
              wifiOn := if isUndefined wifi then wifiOn d else Boolean wifi;
              dataOn := if isUndefined data then dataOn d else Boolean data;
              apiLevel := apiLevel d; location := location d |})
  | Restart => (tt, d)
  | BootstrapStart _ _ _ => (tt, d)
  | SetGeoLocation loc _ =>
      (tt, {| airplaneModeOn := airplaneModeOn d; wifiOn := wifiOn d; dataOn := dataOn d;
              apiLevel := apiLevel d; location := loc |})
  | GetGeoLocation => (location d, d)
  | RefreshGeoLocationCache _ => (tt, d)
  end.

#[export] Instance Phone_Device : Device Phone :=
  λ A c d, let '(a, d') := phoneAnswer c d in (Ret a, d').

(** A device some of whose methods are out of order: a call of a method
    named in the list is rejected, any other call goes to the device. *)
Record Faulty (D : Type) := {
  working : D;
  outOfOrder : list string
}.
Arguments working {D} _.
Arguments outOfOrder {D} _.

#[export] Instance Faulty_Device {D} `{!Device D} : Device (Faulty D) :=
  λ A c d,
    if includes (outOfOrder d) (methodName c) then
      (Throw (DeviceError (String.append (methodName c) " failed")), d)
    else
      let '(r, d') := respond c (working d) in
      (r, {| working := d'; outOfOrder := outOfOrder d |}).

(** The bitmask that describes a phone: bit 0 airplane mode, bit 1 Wi-Fi,
    bit 2 data. *)
Definition phoneMask (airplane wifi data : bool) : Z :=
  (if airplane then 1 else 0) + (if wifi then 2 else 0) + (if data then 4 else 0).

Definition noLocation : RawLocation :=
  {| raw_latitude := VUndefined; raw_longitude := VUndefined; raw_altitude := VUndefined |}.

Definition noOpts : DriverOpts :=
  {| appPackage := VUndefined; disableAndroidWatchers := VUndefined;
     acceptSslCerts := VUndefined |}.

(** A driver on a phone with the given toggles, with an empty journal. *)
Definition driverOn (airplane wifi data : bool) (level : Z)
    (bs : option Bootstrap) (emu : bool) : Driver Phone :=
  {| adb := {| airplaneModeOn := airplane; wifiOn := wifi; dataOn := data;
               apiLevel := level; location := noLocation |};
     bootstrap := bs; isEmulator := emu; opts := noOpts; journal := [] |}.

(** A driver on a phone that reports the given raw location. *)
Definition locatedDriver (loc : RawLocation) : Driver Phone :=
  {| adb := {| airplaneModeOn := false; wifiOn := false; dataOn := false;
               apiLevel := 30; location := loc |};
     bootstrap := None; isEmulator := true; opts := noOpts; journal := [] |}.

(** The same driver on a device whose listed methods are out of order. *)
Definition faultyDriver {D} (broken : list string) (w : Driver D) : Driver (Faulty D) :=
  {| adb := {| working := adb w; outOfOrder := broken |};
     bootstrap := bootstrap w; isEmulator := isEmulator w;
     opts := opts w; journal := journal w |}.

(** ** Properties of computations *)

(** Every event the computation appends to the journal satisfies [φ],
    whether it returns or throws. *)
Definition quiet {D A} (φ : Event → bool) (m : M D A) : Prop :=
  ∀ w, ∃ evs, journal (m w).2 = journal w ++ evs ∧ forallb φ evs = true.

(** When the computation returns, it has appended the event [ev]. *)
Definition announces {D A} (ev : Event) (m : M D A) : Prop :=
  ∀ w a w', m w = (Ret a, w') → ∃ evs, journal w' = journal w ++ evs ∧ In ev evs.

(** A device none of whose methods fails. *)
Definition reliable (D : Type) `{!Device D} : Prop :=
  ∀ A (c : Call A) (d : D), ∃ a d', respond c d = (Ret a, d').

(** The state queries [mobileGetConnectivity] makes for a list of
    requested services, in order. *)
Definition queriesOf (services : list string) : list Event :=
  (if includes services WIFI_KEY_NAME then [] else [Called IsWifiOn]) ++
  (if includes services DATA_KEY_NAME then [] else [Called IsDataOn]) ++
  (if includes services AIRPLANE_MODE_KEY_NAME then [] else [Called IsAirplaneModeOn]).

(** The service names [mobileGetConnectivity] supports. *)
Definition knownService (k : string) : bool :=
  includes [WIFI_KEY_NAME; DATA_KEY_NAME; AIRPLANE_MODE_KEY_NAME] k.

(** What reading the value of [statePromises[k]] throws for a name [k]
    that is not supported: the name of an inherited property finds
    something without a [value] method, any other name finds
    [undefined]. *)
Definition lookupFailure (k : string) : Error :=
  if includes objectPrototypeKeys k then notCallable else noPromise.

(** The computation returns from every state, and leaves a bootstrap
    attached when one was attached. *)
Definition returning {D A} (m : M D A) : Prop :=
  ∀ w, ∃ a w', m w = (Ret a, w') ∧ (is_Some (bootstrap w) → is_Some (bootstrap w')).


(** The world in which a wrapped action starts and the one the wrapper
    leaves behind. *)
Definition flagged {D} (v : bool) (w : Driver D) : Driver D :=
  with_bootstrap w (Some {| ignoreUnexpectedShutdown := v |}).

Definition everything (ev : Event) : bool := true.

Definition noDataWrite (ev : Event) : bool := negb (invokes "setDataState" ev).

Definition noAirplaneWrite (ev : Event) : bool :=
  negb (invokes "setAirplaneMode" ev || invokes "broadcastAirplaneMode" ev).

(** The line [setNetworkConnection] logs when it leaves the data state
    alone because airplane mode is requested. *)
Definition suppression : Event :=
  Logged Info "Not changing data connection state, because airplane mode is enabled".

(** Big-step reading of a computation: from [w] it ends with the
    completion [r] in the world [w']. *)
Definition runs {D A} (m : M D A) (w : Driver D) (r : Completion A) (w' : Driver D) : Prop :=
  m w = (r, w').

(** What switching airplane mode leaves in the journal of a phone: the
    write, the API level query and, below level 30, the broadcast, each
    followed by the two restarts when a bootstrap is attached. *)
Definition restartEvents (w : Driver Phone) : list Event :=
  match bootstrap w with
  | Some _ =>
      [Called Restart;
       Called (BootstrapStart (appPackage (opts w)) (disableAndroidWatchers (opts w))
                              (acceptSslCerts (opts w)))]
  | None => []
  end.

Definition switchEvents (legacy on : bool) (w : Driver Phone) : list Event :=
  [Called (SetAirplaneMode (VBool on))] ++ restartEvents w ++
  [Called GetApiLevel] ++
  (if legacy then [Called (BroadcastAirplaneMode (VBool on))] else []) ++
  restartEvents w.

Definition switched (legacy on : bool) (w : Driver Phone) : Driver Phone :=
  {| adb := {| airplaneModeOn := on; wifiOn := wifiOn (adb w); dataOn := dataOn (adb w);
               apiLevel := apiLevel (adb w); location := location (adb w) |};
     bootstrap := match bootstrap w with
                  | Some _ => Some {| ignoreUnexpectedShutdown := false |}
                  | None => None
                  end;
     isEmulator := isEmulator w;
     opts := opts w;
     journal := journal w ++ switchEvents legacy on w |}.

(** ** Further readings of the journal *)

(** The event is no call, or a call of one of the three state queries. *)
Definition onlyStateQuery (ev : Event) : bool :=
  match invoked ev with
  | Some n => existsb (String.eqb n) ["isAirplaneModeOn"; "isWifiOn"; "isDataOn"]
  | None => true
  end.

(** The event respects the options of [mobileSetConnectivity]: it is no
    Wi-Fi write when [wifi] is unset and no data write when [data] is. *)
Definition respectsUnset (opts : SetConnectivityOptions) (ev : Event) : bool :=
  (negb (isUndefined (wifi opts)) || negb (invokes "setWifiState" ev)) &&
  (negb (isUndefined (data opts)) || negb (invokes "setDataState" ev)).

Definition noWifiDataWrite (ev : Event) : bool :=
  negb (invokes "setWifiState" ev || invokes "setDataState" ev).

(** The events a computation appends split in two: a first part that
    satisfies [φ1] and a second part that satisfies [φ2]. *)
Definition phased {D A} (φ1 φ2 : Event → bool) (m : M D A) : Prop :=
  ∀ w, ∃ evs1 evs2,
    journal (m w).2 = journal w ++ evs1 ++ evs2 ∧
    forallb φ1 evs1 = true ∧ forallb φ2 evs2 = true.

(** The error [mobileSetConnectivity] raises when no option is given. *)
Definition noOptionError : Error :=
  InvalidArgumentError
    "Either one of ['wifi', 'data', 'airplaneMode'] options must be provided".

(** No promise of the array is rejected. *)
Definition noneRejected {D} (items : list (Element (D:=D))) : Prop :=
  firstRejection (promisesOf items) = None.

(** The three toggles of a phone: airplane mode, Wi-Fi, data. *)
Definition toggles (p : Phone) : bool * bool * bool :=
  (airplaneModeOn p, wifiOn p, dataOn p).

(** The events that write the airplane mode. *)
Definition isAirplaneWrite (ev : Event) : bool := negb (noAirplaneWrite ev).

(** ** The settings screen

    [toggleLocationServices] and its helpers drive the device through
    further methods of the bridge and of the driver: the location
    providers, key events, the focused activity, the settings activity.
    A device with a screen answers them; [B.delay] lets time pass on it
    and cannot fail. *)

Module KeyCode.
Definition UP : Z := 19.
Definition DOWN : Z := 20.
Definition RIGHT : Z := 22.
Definition CENTER : Z := 23.
End KeyCode.

Inductive UiCall : Type → Type :=
| GetLocationProviders : UiCall (list string)
| ToggleGPSLocationProvider (enabled : bool) : UiCall unit
| Keyevent (key : Z) : UiCall unit
| GetFocusedPackageAndActivity : UiCall (Val * Val)
| WaitForNotActivity (appPackage appActivity : Val) (waitMs : Z) : UiCall unit
| Back : UiCall unit
| OpenSettingsActivity (setting : string) : UiCall unit.

Class Screen (D : Type) := {
  operate : ∀ {A : Type}, UiCall A → D → Completion A * D;
  elapse : Z → D → D
}.

(** The second argument of [toggleSetting]: [null], an array of key
    codes, or [undefined] when it is left out. *)
Inductive KeySeq :=
| KeysNull
| KeysUndefined
| Keys (keys : list Z).

(** [xs.indexOf(x)] *)
Fixpoint indexOfFrom (i : Z) (xs : list string) (x : string) : Z :=
  match xs with
  | [] => -1
  | y :: ys => if String.eqb y x then i else indexOfFrom (i + 1) ys x
  end.

Definition indexOf (xs : list string) (x : string) : Z := indexOfFrom 0 xs x.

Section ScreenCommands.
Context {D : Type} `{!Device D} `{!Screen D}.

(** [await this.adb.method(...)] for the methods of the screen, and
    [await this.openSettingsActivity(setting)]. *)
Definition ui {A} (c : UiCall A) : M D A :=
  λ w, match operate c (adb w) with
       | (r, d) => (r, with_adb w d)
       end.

(** [await B.delay(ms)] *)
Definition delay (ms : Z) : M D unit :=
  λ w, (Ret tt, with_adb w (elapse ms (adb w))).

(** [for (let x of xs) { await body(x) }] *)
Fixpoint forEach {A} (xs : list A) (body : A → M D unit) : M D unit :=
  match xs with
  | [] => ret tt
  | x :: xs' => body x ;; forEach xs' body
  end.

(** *** [doKey] *)

Definition doKey (key : Z) : M D unit :=
  delay 2000 ;;
  ui (Keyevent key).

(** *** [toggleSetting] *)

Definition toggleSetting (setting : string) (preKeySeq : KeySeq) : M D unit :=
  let preKeySeq :=
    match preKeySeq with
    | KeysNull => Keys [KeyCode.UP; KeyCode.UP; KeyCode.DOWN]
    | _ => preKeySeq
    end in
  ui (OpenSettingsActivity setting) ;;
  match preKeySeq with
  | Keys keys => forEach keys doKey
  | _ => throw (TypeError "preKeySeq is not iterable")
  end ;;
  focused <- ui GetFocusedPackageAndActivity ;;
  let '(appPackage, appActivity) := focused in
  wrapBootstrapDisconnect (
    doKey KeyCode.CENTER ;;
    ret VUndefined) ;;
  try_catch
    (ui (WaitForNotActivity appPackage appActivity 5000) ;;
     doKey KeyCode.RIGHT ;;
     doKey KeyCode.CENTER ;;
     ui (WaitForNotActivity appPackage appActivity 5000))
    (λ ign, ret tt) ;;
  ui Back.

(** *** [toggleLocationServices] *)

Definition toggleLocationServices : M D unit :=
  log Info "Toggling location services" ;;
  api <- call GetApiLevel ;;
  emu <- getEmulator ;;
  if emu then
    providers <- ui GetLocationProviders ;;
    let isGpsEnabled := negb (indexOf providers "gps" =? -1) in
    ui (ToggleGPSLocationProvider (negb isGpsEnabled))
  else if 15 <? api then
    let seq := [KeyCode.UP; KeyCode.UP] in
    seq <- (if api =? 16 then
              ret (seq ++ [KeyCode.DOWN])
            else if api <? 28 then
              ui (Keyevent KeyCode.UP) ;;
              ret [KeyCode.RIGHT; KeyCode.RIGHT; KeyCode.UP]
            else if 28 <=? api then
              ui (Keyevent KeyCode.UP) ;;
              ret [KeyCode.RIGHT]
            else
              ret seq) ;;
    toggleSetting "LOCATION_SOURCE_SETTINGS" (Keys seq)
  else
    throw NotYetImplementedError.

End ScreenCommands.

(** ** A device that remembers what it received

    Around any device, a recorder keeps the calls on the bridge, the
    calls on the screen and the delays in the order they arrive, and hands
    each of them to the device. *)

Inductive Received :=
| Bridge {A : Type} (c : Call A)
| Ui {A : Type} (c : UiCall A)
| Elapsed (ms : Z).

Record Recorder (D : Type) := {
  device : D;
  received : list Received
}.
Arguments device {D} _.
Arguments received {D} _.

#[export] Instance Recorder_Device {D} `{!Device D} : Device (Recorder D) :=
  λ A c r, let '(res, d) := respond c (device r) in
           (res, {| device := d; received := received r ++ [Bridge c] |}).

#[export] Instance Recorder_Screen {D} `{!Screen D} : Screen (Recorder D) := {|
  operate A c r :=
    let '(res, d) := operate c (device r) in
    (res, {| device := d; received := received r ++ [Ui c] |});
  elapse ms r :=
    {| device := elapse ms (device r); received := received r ++ [Elapsed ms] |}
|}.

(** What a recorder received during a run. *)
Definition receivedBy {D A} (m : M (Recorder D) A) (w : Driver (Recorder D)) : list Received :=
  drop (length (received (adb w))) (received (adb (m w).2)).

(** The key codes among the received calls, in order. *)
Definition keysOf (rs : list Received) : list Z :=
  omap (λ r, match r with
             | @Ui _ (Keyevent key) => Some key
             | _ => None
             end) rs.

(** Moving through the settings: opening them, key events, delays, the
    focused activity, waiting, going back. *)
Definition isNavigation (r : Received) : bool :=
  match r with
  | @Ui _ GetLocationProviders => false
  | @Ui _ (ToggleGPSLocationProvider _) => false
  | @Ui _ _ => true
  | Elapsed _ => true
  | Bridge _ => false
  end.

(** A handset: a phone with a screen.  It lists its location providers,
    switches the GPS provider, takes every key event, and after a click
    on a setting shows a pop-up, or never does: waiting for the focused
    activity to change then times out. *)
Record Handset := {
  phone : Phone;
  providers : list string;
  focused : Val * Val;
  popup : bool
}.

Definition withoutGps (ps : list string) : list string :=
  List.filter (λ p, negb (String.eqb p "gps")) ps.

Definition handsetAnswer {A} (c : UiCall A) (h : Handset) : Completion A * Handset :=
  match c in UiCall A return Completion A * Handset with
  | GetLocationProviders => (Ret (providers h), h)
  | ToggleGPSLocationProvider enabled =>
      (Ret tt,
       {| phone := phone h;
          providers := if enabled then "gps" :: withoutGps (providers h)
                       else withoutGps (providers h);
          focused := focused h; popup := popup h |})
  | Keyevent _ => (Ret tt, h)
  | GetFocusedPackageAndActivity => (Ret (focused h), h)
  | WaitForNotActivity _ _ _ =>
      (if popup h then Ret tt
       else Throw (DeviceError "Activity never stopped being focused"), h)
  | Back => (Ret tt, h)
  | OpenSettingsActivity _ => (Ret tt, h)
  end.

#[export] Instance Handset_Device : Device Handset :=
  λ A c h, let '(res, p) := respond c (phone h) in
           (res, {| phone := p; providers := providers h;
                    focused := focused h; popup := popup h |}).

#[export] Instance Handset_Screen : Screen Handset := {|
  operate A c h := handsetAnswer c h;
  elapse ms h := h
|}.

(** A driver on a recorded handset of the given API level, with nothing
    received and an empty journal. *)
Definition handsetDriver (level : Z) (ps : list string) (pop : bool)
    (bs : option Bootstrap) (emu : bool) : Driver (Recorder Handset) :=
  {| adb := {| device := {| phone := {| airplaneModeOn := false; wifiOn := false;
                                        dataOn := false; apiLevel := level;
                                        location := noLocation |};
                            providers := ps;
                            focused := (VStr "com.android.settings", VStr ".Settings");
                            popup := pop |};
               received := [] |};
     bootstrap := bs; isEmulator := emu; opts := noOpts; journal := [] |}.

(** What a recorder receives for one [doKey]. *)
Definition keyPress (key : Z) : list Received := [Elapsed 2000; Ui (Keyevent key)].

(** What the recorder of a handset receives when the wrapper restarts. *)
Definition restartsReceived (w : Driver (Recorder Handset)) : list Received :=
  match bootstrap w with
  | Some _ =>
      [Bridge Restart;
       Bridge (BootstrapStart (appPackage (opts w)) (disableAndroidWatchers (opts w))
                              (acceptSslCerts (opts w)))]
  | None => []
  end.

(** What the recorder of a handset receives during [toggleSetting]. *)
Definition settingReceived (setting : string) (keys : list Z)
    (w : Driver (Recorder Handset)) : list Received :=
  let '(appPackage, appActivity) := focused (device (adb w)) in
  [Ui (OpenSettingsActivity setting)] ++
  flat_map keyPress keys ++
  [Ui GetFocusedPackageAndActivity] ++
  keyPress KeyCode.CENTER ++
  restartsReceived w ++
  [Ui (WaitForNotActivity appPackage appActivity 5000)] ++
  (if popup (device (adb w)) then
     keyPress KeyCode.RIGHT ++ keyPress KeyCode.CENTER ++
     [Ui (WaitForNotActivity appPackage appActivity 5000)]
   else []) ++
  [Ui Back].

(** The driver after its recorder received [rs] and the device stayed
    as it was. *)
Definition receiving {D} (w : Driver (Recorder D)) (rs : list Received) :
    Driver (Recorder D) :=
  with_adb w {| device := device (adb w); received := received (adb w) ++ rs |}.

(** * Properties *)

Section Journal.
Context {D : Type} `{!Device D}.

Lemma quiet_ret {A} φ (a : A) : quiet φ (ret (D:=D) a).
Proof. intros w. exists []. simpl. by rewrite app_nil_r. Qed.

Lemma quiet_throw {A} φ e : quiet φ (throw (D:=D) (A:=A) e).
Proof. intros w. exists []. simpl. by rewrite app_nil_r. Qed.

Lemma quiet_bind {A B} φ (m : M D A) (k : A → M D B) :
  quiet φ m → (∀ a, quiet φ (k a)) → quiet φ (bind m k).
Proof.
  intros Hm Hk w. unfold bind.
  destruct (Hm w) as (evs1 & E1 & F1).
  destruct (m w) as [[a|e] w1]; simpl in *.
  - destruct (Hk a w1) as (evs2 & E2 & F2).
    exists (evs1 ++ evs2). rewrite E2, E1, app_assoc. split; [done|].
    rewrite forallb_app. by rewrite F1, F2.
  - by exists evs1.
Qed.

Lemma quiet_log φ level msg :
  φ (Logged level msg) = true → quiet φ (log (D:=D) level msg).
Proof. intros Hφ w. exists [Logged level msg]. simpl. by rewrite Hφ. Qed.

Lemma quiet_start {A} φ (c : Call A) :
  φ (Called c) = true → quiet φ (start c).
Proof.
  intros Hφ w. exists [Called c]. unfold start.
  destruct (respond c (adb w)) as [r d]. simpl. by rewrite Hφ.
Qed.

Lemma quiet_await {A} φ (p : Completion A) : quiet φ (await (D:=D) p).
Proof. destruct p; [apply quiet_ret | apply quiet_throw]. Qed.

Lemma quiet_call {A} φ (c : Call A) :
  φ (Called c) = true → quiet φ (call c).
Proof.
  intros Hφ. apply quiet_bind; [by apply quiet_start | intros; apply quiet_await].
Qed.

Lemma quiet_getEmulator φ : quiet φ (getEmulator (D:=D)).
Proof. intros w. exists []. simpl. by rewrite app_nil_r. Qed.

Lemma quiet_getOpts φ : quiet φ (getOpts (D:=D)).
Proof. intros w. exists []. simpl. by rewrite app_nil_r. Qed.

Lemma quiet_getBootstrap φ : quiet φ (getBootstrap (D:=D)).
Proof. intros w. exists []. simpl. by rewrite app_nil_r. Qed.

Lemma quiet_setIgnoreUnexpectedShutdown φ v :
  quiet φ (setIgnoreUnexpectedShutdown (D:=D) v).
Proof.
  intros w. exists []. unfold setIgnoreUnexpectedShutdown.
  destruct (bootstrap w); simpl; by rewrite app_nil_r.
Qed.

Lemma quiet_try_finally {A} φ (body : M D A) cleanup :
  quiet φ body → quiet φ cleanup → quiet φ (try_finally body cleanup).
Proof.
  intros Hb Hc w. unfold try_finally.
  destruct (Hb w) as (evs1 & E1 & F1).
  destruct (body w) as [r w1]; simpl in *.
  destruct (Hc w1) as (evs2 & E2 & F2).
  exists (evs1 ++ evs2). rewrite forallb_app, F1, F2.
  destruct (cleanup w1) as [[u|e] w2]; simpl in *; by rewrite E2, E1, app_assoc.
Qed.

Lemma quiet_try_catch {A} φ (body : M D A) handler :
  quiet φ body → (∀ e, quiet φ (handler e)) → quiet φ (try_catch body handler).
Proof.
  intros Hb Hh w. unfold try_catch.
  destruct (Hb w) as (evs1 & E1 & F1).
  destruct (body w) as [[a|e] w1]; simpl in *.
  - by exists evs1.
  - destruct (Hh e w1) as (evs2 & E2 & F2).
    exists (evs1 ++ evs2). rewrite E2, E1, app_assoc, forallb_app. by rewrite F1, F2.
Qed.

Lemma quiet_bootstrapStart φ a b c :
  φ (Called (BootstrapStart a b c)) = true → quiet φ (bootstrapStart a b c).
Proof.
  intros Hφ. apply quiet_bind; [apply quiet_getBootstrap|].
  intros [bs|]; [by apply quiet_call | apply quiet_throw].
Qed.

Lemma quiet_wrapBootstrapDisconnect φ wrapped :
  φ (Called Restart) = true →
  (∀ a b c, φ (Called (BootstrapStart a b c)) = true) →
  quiet φ wrapped → quiet φ (wrapBootstrapDisconnect wrapped).
Proof.
  intros Hr Hs Hw. apply quiet_bind; [apply quiet_getBootstrap|].
  intros [bs|]; [|done].
  apply quiet_bind; [apply quiet_setIgnoreUnexpectedShutdown|]. intros _.
  apply quiet_try_finally; [|apply quiet_setIgnoreUnexpectedShutdown].
  apply quiet_bind; [done|]. intros _.
  apply quiet_bind; [by apply quiet_call|]. intros _.
  apply quiet_bind; [apply quiet_getOpts|]. intros o.
  apply quiet_bind; [by apply quiet_bootstrapStart|]. intros _.
  apply quiet_ret.
Qed.

Lemma quiet_getNetworkConnection φ :
  (∀ msg, φ (Logged Info msg) = true) →
  φ (Called IsAirplaneModeOn) = true →
  φ (Called IsWifiOn) = true →
  φ (Called IsDataOn) = true →
  quiet φ getNetworkConnection.
Proof.
  intros Hl Ha Hw Hd. unfold getNetworkConnection, isWifiOn.
  apply quiet_bind; [by apply quiet_log|]. intros _.
  apply quiet_bind; [by apply quiet_call|]. intros [|]; simpl.
  - apply quiet_ret.
  - apply quiet_bind; [by apply quiet_call|]. intros wifiOn.
    apply quiet_bind; [by apply quiet_call|]. intros dataOn.
    apply quiet_ret.
Qed.

End Journal.

Ltac quiet_step :=
  first
    [ apply quiet_ret
    | apply quiet_throw
    | apply quiet_getEmulator
    | apply quiet_getOpts
    | apply quiet_getBootstrap
    | apply quiet_await
    | apply quiet_log; reflexivity
    | apply quiet_start; reflexivity
    | apply quiet_call; reflexivity
    | apply quiet_getNetworkConnection; [intros; reflexivity | reflexivity ..]
    | apply quiet_wrapBootstrapDisconnect; [reflexivity | intros; reflexivity |]
    | apply quiet_bind; [| intros ?]
    | match goal with |- quiet _ (if ?b then _ else _) => destruct b end
    | match goal with |- quiet _ (match ?b with _ => _ end) => destruct b end ].

Ltac quiet_auto := unfold setWifiState, isWifiOn; repeat quiet_step.

Section SetNetworkConnection.
Context {D : Type} `{!Device D}.

Lemma announces_log level msg : announces (Logged level msg) (log (D:=D) level msg).
Proof.
  intros w a w' E. inversion E; subst. exists [Logged level msg].
  split; [done | by left].
Qed.

Lemma announces_bind_l {A B} ev (m : M D A) (k : A → M D B) :
  announces ev m → (∀ a, quiet everything (k a)) → announces ev (bind m k).
Proof.
  intros Hm Hk w b w'. unfold bind.
  destruct (m w) as [[a|e] w1] eqn:E; [|done]. intros Ek.
  destruct (Hm _ _ _ E) as (evs1 & E1 & I1).
  destruct (Hk a w1) as (evs2 & E2 & _). rewrite Ek in E2. simpl in E2.
  exists (evs1 ++ evs2). rewrite E2, E1, app_assoc. split; [done|].
  apply in_or_app. by left.
Qed.

Lemma announces_bind_r {A B} ev (m : M D A) (k : A → M D B) :
  quiet everything m → (∀ a, announces ev (k a)) → announces ev (bind m k).
Proof.
  intros Hm Hk w b w'. unfold bind.
  destruct (Hm w) as (evs1 & E1 & _).
  destruct (m w) as [[a|e] w1] eqn:E; [|done]. intros Ek. simpl in E1.
  destruct (Hk _ _ _ _ Ek) as (evs2 & E2 & I2).
  exists (evs1 ++ evs2). rewrite E2, E1, app_assoc. split; [done|].
  apply in_or_app. by right.
Qed.

Lemma announces_try_finally {A} ev (body : M D A) cleanup :
  announces ev body → quiet everything cleanup →
  announces ev (try_finally body cleanup).
Proof.
  intros Hb Hc w a w'. unfold try_finally.
  destruct (body w) as [r w1] eqn:E.
  destruct (Hc w1) as (evs2 & E2 & _).
  destruct (cleanup w1) as [[u|e] w2]; [|done]. intros Ek. inversion Ek; subst.
  destruct (Hb _ _ _ E) as (evs1 & E1 & I1). simpl in E2.
  exists (evs1 ++ evs2). rewrite E2, E1, app_assoc. split; [done|].
  apply in_or_app. by left.
Qed.

Lemma announces_wrapBootstrapDisconnect ev wrapped :
  announces ev wrapped → announces ev (wrapBootstrapDisconnect wrapped).
Proof.
  intros Hw. unfold wrapBootstrapDisconnect.
  apply announces_bind_r; [quiet_auto|]. intros [bs|]; [|done].
  apply announces_bind_r; [apply quiet_setIgnoreUnexpectedShutdown|]. intros _.
  apply announces_try_finally; [|apply quiet_setIgnoreUnexpectedShutdown].
  apply announces_bind_l; [done|]. intros _.
  quiet_auto.
Qed.

Lemma setNetworkConnection_quiet type :
  bitand type AIRPLANE_MODE_MASK ≠ 0 →
  quiet noDataWrite (setNetworkConnection type).
Proof.
  intros Hbit. apply Z.eqb_neq in Hbit.
  unfold setNetworkConnection. rewrite Hbit. simpl negb.
  quiet_auto.
Qed.

Lemma setNetworkConnection_announces type w cs w1 v w' :
  bitand type AIRPLANE_MODE_MASK ≠ 0 →
  getNetworkConnection (record w (Logged Info "Setting network connection")) = (Ret cs, w1) →
  (bitand type DATA_MASK =? 0) ≠ (bitand cs DATA_MASK =? 0) →
  setNetworkConnection type w = (Ret v, w') →
  ∃ evs, journal w' = journal w ++ evs ∧ In suppression evs.
Proof.
  intros Hbit Hget Hdata. apply Z.eqb_neq in Hbit.
  destruct (quiet_getNetworkConnection everything
              ltac:(done) ltac:(done) ltac:(done) ltac:(done)
              (record w (Logged Info "Setting network connection")))
    as (evs1 & E1 & _).
  rewrite Hget in E1. simpl in E1.
  unfold setNetworkConnection. rewrite Hbit. simpl negb.
  unfold bind at 1. unfold log at 1. cbv beta iota.
  unfold bind at 1. rewrite Hget. cbv beta iota.
  replace (Bool.eqb (negb (bitand type DATA_MASK =? 0)) (negb (bitand cs DATA_MASK =? 0)))
    with false
    by (destruct (bitand type DATA_MASK =? 0), (bitand cs DATA_MASK =? 0); done).
  rewrite andb_false_r.
  intros Hrest.
  assert (Hann : ∀ (first wifiStep : M D unit),
    quiet everything first → quiet everything wifiStep →
    announces suppression
      (bind first (λ _,
        bind (wrapBootstrapDisconnect
                (bind wifiStep (λ _,
                  bind (log Info "Not changing data connection state, because airplane mode is enabled")
                       (λ _, ret VUndefined))))
             (λ _, getNetworkConnection)))).
  { intros first wifiStep Hf Hs.
    apply announces_bind_r; [done|]. intros _.
    apply announces_bind_l; [|intros; quiet_auto].
    apply announces_wrapBootstrapDisconnect.
    apply announces_bind_r; [done|]. intros _.
    apply announces_bind_l; [apply announces_log | intros; quiet_auto]. }
  eapply Hann in Hrest.
  - destruct Hrest as (evs2 & E2 & I2).
    exists ([Logged Info "Setting network connection"] ++ evs1 ++ evs2).
    rewrite E2, E1. simpl. rewrite <- !app_assoc. split; [done|].
    right. apply in_or_app. by right.
  - quiet_auto.
  - quiet_auto.
Qed.

Lemma returning_ret {A} (a : A) : returning (ret (D:=D) a).
Proof. intros w. by exists a, w. Qed.

Lemma returning_bind {A B} (m : M D A) (k : A → M D B) :
  returning m → (∀ a, returning (k a)) → returning (bind m k).
Proof.
  intros Hm Hk w. destruct (Hm w) as (a & w1 & E1 & B1).
  destruct (Hk a w1) as (b & w2 & E2 & B2).
  exists b, w2. unfold bind. rewrite E1. split; [done|]. auto.
Qed.

Lemma returning_log level msg : returning (log (D:=D) level msg).
Proof. intros w. by eexists _, _. Qed.

Lemma returning_getEmulator : returning (getEmulator (D:=D)).
Proof. intros w. by eexists _, _. Qed.

Lemma returning_call {A} (c : Call A) : reliable D → returning (call c).
Proof.
  intros Hrel w. destruct (Hrel _ c (adb w)) as (a & d & E).
  exists a, (record (with_adb w d) (Called c)).
  unfold call, bind, start. by rewrite E.
Qed.

Lemma returning_wrapBootstrapDisconnect (wrapped : M D Val) :
  reliable D → returning wrapped → returning (wrapBootstrapDisconnect wrapped).
Proof.
  intros Hrel Hw w. unfold wrapBootstrapDisconnect.
  unfold bind at 1, getBootstrap at 1. cbv beta iota.
  destruct (bootstrap w) as [b|] eqn:Hb;
    [|destruct (Hw w) as (a & w' & E & _); exists a, w'; split; [done | by intros [? ?]]].
  unfold bind at 1, setIgnoreUnexpectedShutdown at 1. rewrite Hb. cbv beta iota.
  destruct (Hw (with_bootstrap w (Some {| ignoreUnexpectedShutdown := true |})))
    as (v & w1 & E1 & B1).
  destruct (B1 ltac:(by eexists)) as [b1 Hb1].
  destruct (Hrel _ Restart (adb w1)) as (u & d2 & E2).
  destruct (Hrel _ (BootstrapStart (appPackage (opts w1)) (disableAndroidWatchers (opts w1))
                                   (acceptSslCerts (opts w1))) d2) as (u' & d3 & E3).
  unfold try_finally. unfold bind at 1. rewrite E1.
  unfold bind at 1, call at 1, bind at 1, start at 1. rewrite E2. cbn [await ret].
  unfold bind at 1, getOpts at 1. cbv beta iota.
  unfold bind at 1, bootstrapStart, bind at 1, getBootstrap at 1. cbn [bootstrap record with_adb].
  rewrite Hb1. unfold call, bind, start. cbn [adb opts record with_adb]. rewrite E3.
  cbn [await ret]. unfold setIgnoreUnexpectedShutdown. cbn [bootstrap record with_adb].
  rewrite Hb1. eexists _, _. split; [reflexivity|]. intros _. by eexists.
Qed.

Lemma returning_getNetworkConnection : reliable D → returning (getNetworkConnection (D:=D)).
Proof.
  intros Hrel. unfold getNetworkConnection, isWifiOn.
  apply returning_bind; [apply returning_log|]. intros _.
  apply returning_bind; [by apply returning_call|]. intros [|].
  - apply returning_ret.
  - apply returning_bind; [by apply returning_call|]. intros wifiOn.
    apply returning_bind; [by apply returning_call|]. intros dataOn.
    apply returning_ret.
Qed.

Ltac returning_step Hrel :=
  first
    [ apply returning_ret
    | apply returning_log
    | apply returning_getEmulator
    | apply returning_call; exact Hrel
    | apply returning_getNetworkConnection; exact Hrel
    | apply returning_wrapBootstrapDisconnect; [exact Hrel|]
    | apply returning_bind; [| intros ?]
    | match goal with |- returning (if ?b then _ else _) => destruct b end ].

(** On a device none of whose methods fails, [setNetworkConnection]
    returns, for every bitmask and from every state. *)
Lemma setNetworkConnection_returning (type : Z) :
  reliable D → returning (setNetworkConnection (D:=D) type).
Proof.
  intros Hrel. unfold setNetworkConnection, setWifiState. repeat returning_step Hrel.
Qed.

(** C4. When the airplane-mode bit of the requested bitmask is set,
    [setNetworkConnection] never calls [adb.setDataState], on any device and
    whether it returns or throws.  The suppression is no error: on a
    device none of whose methods fails the call returns; and when the data
    bit asks for a change of the data state read at the start, a call that
    returns has logged that the data state is left alone. *)
Theorem setNetworkConnection_airplane_never_writes_data (type : Z) (w : Driver D) :
  bitand type AIRPLANE_MODE_MASK ≠ 0 →
  ∃ evs,
    journal (setNetworkConnection type w).2 = journal w ++ evs ∧
    Forall (λ ev, invokes "setDataState" ev = false) evs ∧
    (reliable D → ∃ v, (setNetworkConnection type w).1 = Ret v) ∧
    ∀ cs w1,
      getNetworkConnection (record w (Logged Info "Setting network connection"))
        = (Ret cs, w1) →
      (bitand type DATA_MASK =? 0) ≠ (bitand cs DATA_MASK =? 0) →
      ∀ v, (setNetworkConnection type w).1 = Ret v → In suppression evs.
Proof.
  intros Hbit.
  destruct (setNetworkConnection_quiet type Hbit w) as (evs & E & F).
  exists evs. split; [done|]. split; [|split].
  - apply Forall_forall. intros ev Hin.
    apply list_elem_of_In in Hin.
    rewrite forallb_forall in F. specialize (F ev Hin).
    unfold noDataWrite in F. by apply negb_true_iff in F.
  - intros Hrel.
    destruct (setNetworkConnection_returning type Hrel w) as (v & w' & Hrun & _).
    exists v. by rewrite Hrun.
  - intros cs w1 Hget Hdata v Hv.
    destruct (setNetworkConnection type w) as [r w'] eqn:Hrun. simpl in *. subst r.
    destruct (setNetworkConnection_announces _ _ _ _ _ _ Hbit Hget Hdata Hrun)
      as (evs' & E' & I').
    rewrite E in E'. apply app_inv_head in E'. by subst.
Qed.

End SetNetworkConnection.

Section Readers.
Context {D : Type} `{!Device D}.

(** C6. When the device reports airplane mode on, [getNetworkConnection]
    calls [isAirplaneModeOn] and nothing else on the bridge, so neither
    Wi-Fi nor data is queried, and returns the bitmask 0b001. *)
Theorem getNetworkConnection_airplane_short_circuit (w : Driver D) (d1 : D) :
  respond IsAirplaneModeOn (adb w) = (Ret true, d1) →
  (getNetworkConnection w).1 = Ret 1 ∧
  journal (getNetworkConnection w).2 =
    journal w ++ [Logged Info "Getting network connection"; Called IsAirplaneModeOn] ∧
  Forall (λ ev, invokes "isWifiOn" ev = false ∧ invokes "isDataOn" ev = false)
         (drop (length (journal w)) (journal (getNetworkConnection w).2)).
Proof.
  intros Hon.
  assert (E : getNetworkConnection w =
              (Ret 1, record (with_adb (record w (Logged Info "Getting network connection")) d1)
                             (Called IsAirplaneModeOn))).
  { unfold getNetworkConnection, call, bind, start, log. simpl. by rewrite Hon. }
  rewrite E. simpl. rewrite <- app_assoc. simpl. split; [done|]. split; [done|].
  rewrite drop_app_length. by repeat constructor.
Qed.

(** Without airplane mode the two other toggles are read and merged. *)
Lemma getNetworkConnection_reads_all (w : Driver D) d1 d2 d3 wifiOn dataOn :
  respond IsAirplaneModeOn (adb w) = (Ret false, d1) →
  respond IsWifiOn d1 = (Ret wifiOn, d2) →
  respond IsDataOn d2 = (Ret dataOn, d3) →
  (getNetworkConnection w).1 = Ret (phoneMask false wifiOn dataOn).
Proof.
  intros H1 H2 H3.
  unfold getNetworkConnection, isWifiOn, call, bind, start, log. simpl.
  rewrite H1. simpl. rewrite H2. simpl. rewrite H3. simpl.
  by destruct wifiOn, dataOn.
Qed.

End Readers.

Section Wrapper.
Context {D : Type} `{!Device D}.



End Wrapper.

Section Geolocation.
Context {D : Type} `{!Device D}.

Lemma GEO_EPSILON_least (x : spec_float) :
  valid_binary prec emax x = true →
  SFltb (S754_zero false) x = true →
  SFleb GEO_EPSILON x = true.
Proof.
  destruct x as [s|s| |s m e]; try done.
  - intros _. by destruct s.
  - destruct s; [done|]. intros Hv _.
    unfold valid_binary, bounded, canonical_mantissa, fexp, SpecFloat.emin, prec, emax in Hv.
    apply andb_true_iff in Hv as [Hc _]. apply Z.eqb_eq in Hc.
    unfold SFleb, GEO_EPSILON, SFcompare.
    destruct (Z.compare_spec (-1074) e) as [He|He|He]; [|done|lia].
    subst e. by destruct m.
Qed.

(** What a raw coordinate [v] is reported as. *)
Lemma orElse_parseFloat v :
  orElse (parseFloat v) GEO_EPSILON =
    match parseFloat v with
    | S754_nan | S754_zero _ => GEO_EPSILON
    | x => x
    end.
Proof. unfold orElse. by destruct (parseFloat v). Qed.

(** C7 as the code has it. [getGeoLocation] reports a raw coordinate as
    the epsilon sentinel exactly when it fails to parse as a number or
    parses as zero (of either sign), and as the parsed number otherwise. *)
Theorem getGeoLocation_sentinel (w : Driver D) (raw : RawLocation) (d1 : D) :
  respond GetGeoLocation (adb w) = (Ret raw, d1) →
  let coordinate v :=
    match parseFloat v with
    | S754_nan | S754_zero _ => GEO_EPSILON
    | x => x
    end in
  (getGeoLocation w).1 =
    Ret {| latitude := coordinate (raw_latitude raw);
           longitude := coordinate (raw_longitude raw);
           altitude := coordinate (raw_altitude raw) |} ∧
  (∀ v, coordinate v = GEO_EPSILON ↔
        parseFloat v = S754_nan ∨ (∃ s, parseFloat v = S754_zero s) ∨
        parseFloat v = GEO_EPSILON) ∧
  (∀ v, parseFloat v ≠ S754_nan → (∀ s, parseFloat v ≠ S754_zero s) →
        coordinate v = parseFloat v).
Proof.
  intros Hget coordinate. split; [|split].
  - unfold getGeoLocation, call, bind, start. rewrite Hget. simpl.
    by rewrite !orElse_parseFloat.
  - intros v. unfold coordinate.
    destruct (parseFloat v) as [s|s| |s m e];
      (split;
       [ intros E;
         first [ done | by left | by right; left; eexists | by right; right ]
       | intros [E|[[s' E]|E]]; done ]).
  - intros v Hn Hz. unfold coordinate.
    destruct (parseFloat v) as [s|s| |s m e]; [by destruct (Hz s)|done..].
Qed.

(** C8. When the write on the bridge succeeds and the read-back throws,
    [setGeoLocation] logs two warnings and returns the location whose
    three coordinates are [GEO_EPSILON], the least positive binary64
    number. *)
Theorem setGeoLocation_readback_failure
    (location : RawLocation) (w w1 w2 : Driver D) (e : Error) :
  call (SetGeoLocation location (isEmulator w)) w = (Ret tt, w1) →
  getGeoLocation w1 = (Throw e, w2) →
  setGeoLocation location w =
    (Ret {| latitude := GEO_EPSILON; longitude := GEO_EPSILON; altitude := GEO_EPSILON |},
     record (record w2
       (Logged Warn (String.append "Could not get the current geolocation info: " (message e))))
       (Logged Warn "Returning the default zero'ed values")) ∧
  valid_binary prec emax GEO_EPSILON = true ∧
  SFltb (S754_zero false) GEO_EPSILON = true ∧
  ∀ x, valid_binary prec emax x = true → SFltb (S754_zero false) x = true →
       SFleb GEO_EPSILON x = true.
Proof.
  intros Hset Hget. split; [|split; [done|split; [done|apply GEO_EPSILON_least]]].
  unfold setGeoLocation.
  unfold bind at 1. unfold getEmulator at 1. cbv beta iota.
  unfold bind at 1. rewrite Hset. cbv beta iota.
  unfold try_catch. rewrite Hget. reflexivity.
Qed.

End Geolocation.

Section Connectivity.
Context {D : Type} `{!Device D}.

(** A state promise: resolved with [undefined] when [skip] holds, else
    with the answer of the device. *)
Lemma statePromise_runs (skip : bool) (c : Call bool) (w : Driver D) :
  ∃ p w1,
    (if skip then ret (Ret VUndefined)
     else p <- start c ;; ret (mapCompletion VBool p)) w = (Ret p, w1) ∧
    journal w1 = journal w ++ (if skip then [] else [Called c]) ∧
    (skip = true → p = Ret VUndefined) ∧
    (reliable D → ∃ v, p = Ret v).
Proof.
  destruct skip.
  - exists (Ret VUndefined), w. simpl. rewrite app_nil_r.
    split; [done|]. split; [done|]. split; [done|]. by exists VUndefined.
  - unfold bind, start, ret. destruct (respond c (adb w)) as [r d] eqn:E.
    eexists _, _. split; [done|]. split; [done|]. split; [done|]. intros Hrel.
    destruct (Hrel _ c (adb w)) as (a & d' & E'). rewrite E in E'.
    inversion E'; subst. by exists (VBool a).
Qed.

Lemma includes_In (l : list string) (k : string) : includes l k = true ↔ In k l.
Proof.
  unfold includes. rewrite existsb_exists. split.
  - intros (x & Hin & Hx). apply String.eqb_eq in Hx. by subst.
  - intros Hin. exists k. split; [done|]. apply String.eqb_refl.
Qed.

Lemma mapM_world {A B} (f : A → M D B) (l : list A) (w : Driver D) :
  (∀ a w0, (f a w0).2 = w0) → (mapM f l w).2 = w.
Proof.
  intros Hf. induction l as [|a l IH]; [done|]. simpl. unfold bind at 1.
  specialize (Hf a w). destruct (f a w) as [[b|e] w1]; simpl in Hf; subst; [|done].
  unfold bind. destruct (mapM f l w) as [[bs|e] w2]; simpl in *; by subst.
Qed.

Lemma mapM_values {A B} (f : A → M D B) (g : A → B) (l : list A) (w w' : Driver D) bs :
  (∀ a w0 b w1, In a l → f a w0 = (Ret b, w1) → b = g a) →
  mapM f l w = (Ret bs, w') → bs = map g l.
Proof.
  revert w w' bs. induction l as [|a l IH]; intros w w' bs Hf.
  - simpl. by intros [= <- _].
  - simpl. unfold bind at 1. destruct (f a w) as [[b|e] w1] eqn:E; [|done].
    unfold bind at 1. destruct (mapM f l w1) as [[bs'|e] w2] eqn:E'; [|done].
    intros [= <- _].
    rewrite (Hf _ _ _ _ (or_introl eq_refl) E).
    by rewrite (IH w1 w2 bs' (λ a0 w0 b0 w3 Hin, Hf a0 w0 b0 w3 (or_intror Hin)) E').
Qed.

Lemma fromPairs_constant (u : Val) (l : list string) (o : gmap string Val) (k : string) :
  fold_left (λ o kv, <[kv.1 := kv.2]> o) (map (λ k, (k, u)) l) o !! k =
    if includes l k then Some u else o !! k.
Proof.
  revert o. induction l as [|a l IH]; intros o; [done|].
  simpl. rewrite IH. unfold includes. simpl.
  destruct (existsb (String.eqb k) l); [by rewrite orb_true_r|].
  rewrite orb_false_r. destruct (String.eqb_spec k a) as [->|Hne].
  - by rewrite lookup_insert_eq.
  - by rewrite lookup_insert_ne.
Qed.

Lemma value_lookupKey (v1 v2 v3 : Val) (k : string) (w : Driver D) :
  let statePromises :=
    [("wifi", Ret v1); ("data", Ret v2); ("airplaneMode", Ret v3)] in
  (knownService k = true ∧ ∃ v, value (lookupKey statePromises k) w = (Ret v, w)) ∨
  (knownService k = false ∧
   value (lookupKey statePromises k) w = (Throw (lookupFailure k), w)).
Proof.
  unfold knownService, lookupFailure, includes,
    WIFI_KEY_NAME, DATA_KEY_NAME, AIRPLANE_MODE_KEY_NAME.
  cbn [lookupKey existsb].
  destruct (String.eqb k "wifi"); [left; eauto|].
  destruct (String.eqb k "data"); [left; eauto|].
  destruct (String.eqb k "airplaneMode"); [left; eauto|].
  right. split; [done|].
  by destruct (existsb (String.eqb k) objectPrototypeKeys).
Qed.

(** Mapping over a list stops at the first element that throws. *)
Lemma mapM_first_throw {A B} (f : A → M D B) (l : list A)
    (good : A → bool) (err : A → Error) :
  (∀ a w, good a = true → ∃ b, f a w = (Ret b, w)) →
  (∀ a w, good a = false → f a w = (Throw (err a), w)) →
  (∃ a, In a l ∧ good a = false) →
  ∀ w, ∃ pre a post,
    l = pre ++ a :: post ∧ forallb good pre = true ∧ good a = false ∧
    mapM f l w = (Throw (err a), w).
Proof.
  intros Hgood Hbad. induction l as [|a l IH]; intros (x & Hin & Hx) w.
  - destruct Hin.
  - destruct (good a) eqn:Ha.
    + destruct Hin as [->|Hin]; [congruence|].
      destruct (IH (ex_intro _ x (conj Hin Hx)) w) as (pre & k & post & -> & Hpre & Hk & E).
      exists (a :: pre), k, post. simpl. rewrite Ha, Hpre.
      split; [done|]. split; [done|]. split; [done|].
      destruct (Hgood a w Ha) as [b Eb]. unfold bind at 1. rewrite Eb.
      unfold bind. by rewrite E.
    + exists [], a, l. simpl. split; [done|]. split; [done|]. split; [done|].
      unfold bind. by rewrite (Hbad a w Ha).
Qed.

(** C10. When the requested services contain a name other than [wifi],
    [data] and [airplaneMode], [mobileGetConnectivity] throws, on any
    device.  When no state query fails, what it throws comes from the
    first such name [k] in the list: the [TypeError] of reading [.value]
    from [undefined] when [statePromises[k]] finds nothing, and the
    [TypeError] of calling a [value] that is no function when [k] names a
    property inherited from [Object.prototype]. *)
Theorem mobileGetConnectivity_unknown_service (opts : ServicesOption) (w : Driver D) :
  (∃ k, In k (servicesOf opts) ∧ knownService k = false) →
  ∃ e, (mobileGetConnectivity opts w).1 = Throw e ∧
       (reliable D →
        ∃ pre k post,
          servicesOf opts = pre ++ k :: post ∧
          forallb knownService pre = true ∧
          knownService k = false ∧
          e = lookupFailure k).
Proof.
  intros Hbad. unfold mobileGetConnectivity.
  destruct (statePromise_runs (includes (servicesOf opts) WIFI_KEY_NAME) IsWifiOn w)
    as (p1 & w1 & E1 & _ & _ & R1).
  unfold bind at 1. rewrite E1.
  destruct (statePromise_runs (includes (servicesOf opts) DATA_KEY_NAME) IsDataOn w1)
    as (p2 & w2 & E2 & _ & _ & R2).
  unfold bind at 1. rewrite E2.
  destruct (statePromise_runs (includes (servicesOf opts) AIRPLANE_MODE_KEY_NAME)
              IsAirplaneModeOn w2) as (p3 & w3 & E3 & _ & _ & R3).
  unfold bind at 1. rewrite E3.
  unfold bind at 1, B_all. cbn [map snd].
  destruct (firstRejection [p1; p2; p3]) as [e|] eqn:Hrej.
  - exists e. split; [done|]. intros Hrel.
    destruct (R1 Hrel) as [v1 ->], (R2 Hrel) as [v2 ->], (R3 Hrel) as [v3 ->]. done.
  - destruct p1 as [v1|]; [|done]. destruct p2 as [v2|]; [|done].
    destruct p3 as [v3|]; [|done]. unfold ret at 1. cbv beta iota.
    destruct (mapM_first_throw
      (λ k, v <- value (lookupKey
                   [("wifi", Ret v1); ("data", Ret v2); ("airplaneMode", Ret v3)] k) ;;
            ret (k, v))
      (servicesOf opts) knownService lookupFailure) with (w := w3)
      as (pre & k & post & Hl & Hpre & Hk & E).
    + intros k w' Hk. unfold bind.
      destruct (value_lookupKey v1 v2 v3 k w') as [[_ [v ->]]|[Hk' _]];
        [eauto | congruence].
    + intros k w' Hk. unfold bind.
      destruct (value_lookupKey v1 v2 v3 k w') as [[Hk' _]|[_ ->]]; [congruence|done].
    + done.
    + exists (lookupFailure k). unfold bind at 1. rewrite E.
      split; [done|]. intros _. by exists pre, k, post.
Qed.

(** What [mobileGetConnectivity] does on any device: it queries the state
    of exactly the supported services that were not requested. *)
Lemma mobileGetConnectivity_queries (opts : ServicesOption) (w : Driver D) :
  journal (mobileGetConnectivity opts w).2 = journal w ++ queriesOf (servicesOf opts).
Proof.
  unfold mobileGetConnectivity, queriesOf.
  destruct (statePromise_runs (includes (servicesOf opts) WIFI_KEY_NAME) IsWifiOn w)
    as (p1 & w1 & E1 & J1 & _).
  unfold bind at 1. rewrite E1.
  destruct (statePromise_runs (includes (servicesOf opts) DATA_KEY_NAME) IsDataOn w1)
    as (p2 & w2 & E2 & J2 & _).
  unfold bind at 1. rewrite E2.
  destruct (statePromise_runs (includes (servicesOf opts) AIRPLANE_MODE_KEY_NAME)
              IsAirplaneModeOn w2) as (p3 & w3 & E3 & J3 & _).
  unfold bind at 1. rewrite E3.
  rewrite app_assoc, <- J1, app_assoc, <- J2, <- J3.
  unfold bind at 1, B_all.
  destruct (firstRejection _) as [e|]; [done|]. unfold ret at 1. cbv beta iota.
  unfold bind at 1.
  match goal with |- context [mapM ?f ?l ?w] =>
    assert (Hw : (mapM f l w).2 = w)
      by (apply mapM_world; intros k w0; unfold bind, value;
          destruct (lookupKey _ k) as [[v|e']| |]; done);
    destruct (mapM f l w) as [[ps|e] w4]
  end; simpl in Hw; by subst.
Qed.

(** And every requested service is mapped to [undefined] in what it
    returns. *)
Lemma mobileGetConnectivity_values (opts : ServicesOption) (w w' : Driver D)
    (o : gmap string Val) (k : string) :
  mobileGetConnectivity opts w = (Ret o, w') →
  o !! k = if includes (servicesOf opts) k then Some VUndefined else None.
Proof.
  unfold mobileGetConnectivity.
  destruct (statePromise_runs (includes (servicesOf opts) WIFI_KEY_NAME) IsWifiOn w)
    as (p1 & w1 & E1 & _ & U1 & _).
  unfold bind at 1. rewrite E1.
  destruct (statePromise_runs (includes (servicesOf opts) DATA_KEY_NAME) IsDataOn w1)
    as (p2 & w2 & E2 & _ & U2 & _).
  unfold bind at 1. rewrite E2.
  destruct (statePromise_runs (includes (servicesOf opts) AIRPLANE_MODE_KEY_NAME)
              IsAirplaneModeOn w2) as (p3 & w3 & E3 & _ & U3 & _).
  unfold bind at 1. rewrite E3.
  unfold bind at 1, B_all.
  destruct (firstRejection _) as [e|]; [done|]. unfold ret at 1. cbv beta iota.
  unfold bind at 1.
  match goal with |- context [mapM ?f ?l ?w] =>
    destruct (mapM f l w) as [[ps|e] w4] eqn:Em; [|done]
  end.
  intros [= <- _].
  apply mapM_values with (g := λ k, (k, VUndefined)) in Em.
  - subst ps. unfold fromPairs. rewrite fromPairs_constant.
    by destruct (includes (servicesOf opts) k).
  - intros a w0 b w5 Hin. apply includes_In in Hin.
    unfold bind, value. simpl.
    destruct (String.eqb_spec a "wifi") as [->|_].
    { rewrite (U1 Hin). by intros [= <- _]. }
    destruct (String.eqb_spec a "data") as [->|_].
    { rewrite (U2 Hin). by intros [= <- _]. }
    destruct (String.eqb_spec a "airplaneMode") as [->|_].
    { rewrite (U3 Hin). by intros [= <- _]. }
    match goal with
    | |- context [if ?c then Inherited else Absent] => by destruct c
    end.
Qed.

Lemma quiet_mapM {A B} φ (f : A → M D B) (l : list A) :
  (∀ a, quiet φ (f a)) → quiet φ (mapM f l).
Proof.
  intros Hf. induction l as [|a l IH]; simpl; [apply quiet_ret|].
  apply quiet_bind; [done|]. intros b.
  apply quiet_bind; [done|]. intros bs. apply quiet_ret.
Qed.

Lemma quiet_B_all {A} φ (ps : list (Completion A)) : quiet φ (B_all (D:=D) ps).
Proof. unfold B_all. destruct (firstRejection ps); [apply quiet_throw | apply quiet_ret]. Qed.

Lemma quiet_value φ p : quiet φ (value (D:=D) p).
Proof. destruct p as [[v|e]| |]; simpl; [apply quiet_ret | apply quiet_throw ..]. Qed.

Lemma quiet_mobileGetConnectivity φ opts :
  φ (Called IsWifiOn) = true →
  φ (Called IsDataOn) = true →
  φ (Called IsAirplaneModeOn) = true →
  quiet φ (mobileGetConnectivity opts).
Proof.
  intros Hw Hd Ha. unfold mobileGetConnectivity.
  apply quiet_bind.
  { destruct (includes _ _); [apply quiet_ret|].
    apply quiet_bind; [by apply quiet_start | intros; apply quiet_ret]. }
  intros p1. apply quiet_bind.
  { destruct (includes _ _); [apply quiet_ret|].
    apply quiet_bind; [by apply quiet_start | intros; apply quiet_ret]. }
  intros p2. apply quiet_bind.
  { destruct (includes _ _); [apply quiet_ret|].
    apply quiet_bind; [by apply quiet_start | intros; apply quiet_ret]. }
  intros p3. apply quiet_bind; [apply quiet_B_all|]. intros _.
  apply quiet_bind; [|intros; apply quiet_ret].
  apply quiet_mapM. intros k.
  apply quiet_bind; [apply quiet_value | intros; apply quiet_ret].
Qed.

(** What [mobileSetConnectivity] does on any device and for any options:
    it never calls [setAirplaneMode] nor [broadcastAirplaneMode]. *)
Lemma mobileSetConnectivity_never_switches_airplane_mode (opts : SetConnectivityOptions) :
  quiet noAirplaneWrite (mobileSetConnectivity (D:=D) opts).
Proof.
  unfold mobileSetConnectivity.
  destruct (forallb isUndefined _); [apply quiet_throw|].
  apply quiet_bind; [by apply quiet_mobileGetConnectivity|]. intros currentState.
  apply quiet_bind.
  { destruct (_ && _); [|apply quiet_ret].
    apply quiet_bind; [apply quiet_getEmulator|]. intros emu.
    apply quiet_bind; [by apply quiet_start | intros; apply quiet_ret]. }
  intros s1. apply quiet_bind.
  { destruct (_ && _); [|apply quiet_ret].
    apply quiet_bind; [apply quiet_getEmulator|]. intros emu.
    apply quiet_bind; [by apply quiet_start | intros; apply quiet_ret]. }
  intros s2. apply quiet_bind.
  { destruct (_ && _); apply quiet_ret. }
  intros s3. destruct s3; [apply quiet_ret | apply quiet_B_all].
Qed.

End Connectivity.

(** ** The commands on the reference phone *)

(** C1 at a failing input: asked for the Wi-Fi state of a phone whose
    Wi-Fi is on, [mobileGetConnectivity] queries the two services that were
    not requested, does not query Wi-Fi, and maps [wifi] to [undefined]. *)
Theorem mobileGetConnectivity_queries_the_unrequested :
  let r := mobileGetConnectivity (ServicesOne "wifi")
             (driverOn false true false 30 None false) in
  r.1 = Ret {[ "wifi" := VUndefined ]} ∧
  invocations (journal r.2) = ["isDataOn"; "isAirplaneModeOn"].
Proof. vm_compute. done. Qed.

(** C2 at two failing inputs: asked to turn Wi-Fi on on a phone whose
    Wi-Fi is already on, [mobileSetConnectivity] calls [setWifiState]
    all the same; asked to turn airplane mode on on a phone where it is
    off, it makes no write at all and leaves airplane mode off. *)
Theorem mobileSetConnectivity_writes_diverge :
  let r1 := mobileSetConnectivity
              {| wifi := VBool true; data := VUndefined; airplaneMode := VUndefined |}
              (driverOn false true false 29 None false) in
  let r2 := mobileSetConnectivity
              {| wifi := VUndefined; data := VUndefined; airplaneMode := VBool true |}
              (driverOn false false false 29 None false) in
  (r1.1 = Ret tt ∧
   invocations (journal r1.2) = ["isDataOn"; "isAirplaneModeOn"; "setWifiState"]) ∧
  (r2.1 = Ret tt ∧
   invocations (journal r2.2) = ["isWifiOn"; "isDataOn"] ∧
   airplaneModeOn (adb r2.2) = false).
Proof. vm_compute. done. Qed.


(** ** Running the commands on the reference phone *)

Lemma runs_bind {D A B} (m : M D A) (k : A → M D B) w a w1 r w' :
  runs m w (Ret a) w1 → runs (k a) w1 r w' → runs (bind m k) w r w'.
Proof. unfold runs, bind. by intros ->. Qed.

Lemma runs_exact {D A} (m : M D A) w r w' : m w = (r, w') → runs m w r w'.
Proof. done. Qed.

Lemma switch_phone (legacy on : bool) (w : Driver Phone) :
  lessThan (apiLevel (adb w)) 30 = legacy →
  runs (wrapBootstrapDisconnect (call (SetAirplaneMode (VBool on)) ;; ret VUndefined) ;;
        wrapBootstrapDisconnect (
          level <- call GetApiLevel ;;
          (if lessThan level 30 then call (BroadcastAirplaneMode (VBool on)) else ret tt) ;;
          ret VUndefined) ;;
        ret tt)
       w (Ret tt) (switched legacy on w).
Proof.
  destruct w as [[A W Dt lvl loc] [b|] emu o j]; simpl; intros Hl;
    unfold runs, switched, switchEvents, restartEvents; lazy -[lessThan app];
    rewrite Hl; destruct legacy; lazy -[app]; rewrite <- ?app_assoc; reflexivity.
Qed.

(** One step of a run: the head of a sequence is evaluated, or, when it
    is the airplane mode switch, taken from [switch_phone]. *)
Ltac run_head Hl :=
  lazymatch goal with
  | |- runs (bind (if ?c then _ else _) _) _ _ _ =>
      let c' := eval vm_compute in c in
      change c with c'; cbv iota
  | |- runs (bind (bind (wrapBootstrapDisconnect
                           (bind (call (SetAirplaneMode (VBool ?on))) _)) _) ?k) ?w _ _ =>
      eapply runs_bind; [apply switch_phone; exact Hl | cbv beta]
  | |- runs (bind ?m ?k) ?w _ _ =>
      let v := eval vm_compute in (m w) in
      lazymatch v with
      | (Ret ?a, ?w1) =>
          apply (runs_bind m k w a w1); [vm_compute; reflexivity | cbv beta]
      end
  end.

Ltac run_tail :=
  lazymatch goal with
  | |- runs ?m ?w _ _ =>
      let v := eval vm_compute in (m w) in
      lazymatch v with
      | (?r, ?w1) => apply (runs_exact m w r w1); vm_compute; reflexivity
      end
  end.

Ltac run_setNetworkConnection Hl :=
  match goal with
  | |- context [setNetworkConnection ?m ?w0] =>
      lazymatch w0 with
      | context [setNetworkConnection] => fail
      | _ => idtac
      end;
      let R := fresh "R" in
      let W := fresh "W" in
      let H := fresh "H" in
      evar (R : Completion Z); evar (W : Driver Phone);
      assert (H : runs (setNetworkConnection m) w0 R W) by
        (subst R W; unfold setNetworkConnection; do 4 run_head Hl; run_tail);
      subst R W; unfold runs in H; rewrite H; clear H
  end.

Ltac pick_event := repeat first [left; reflexivity | right].

Section Decode.
Context {D : Type} `{!Device D}.

(** Only the three low bits of the argument matter. *)
Lemma setNetworkConnection_decode (type : Z) :
  setNetworkConnection (D:=D) type =
  setNetworkConnection
    (phoneMask (negb (bitand type AIRPLANE_MODE_MASK =? 0))
               (negb (bitand type WIFI_MASK =? 0))
               (negb (bitand type DATA_MASK =? 0))).
Proof.
  unfold setNetworkConnection.
  destruct (bitand type AIRPLANE_MODE_MASK =? 0), (bitand type WIFI_MASK =? 0),
    (bitand type DATA_MASK =? 0); reflexivity.
Qed.

End Decode.

(** The spec's example, as the claim C3 states it, fails: on a phone in
    state 0b100, [setNetworkConnection(0b011)] does not return 0b011, does
    call [setAirplaneMode] and does not call [setDataState]. *)
Lemma setNetworkConnection_example_fails :
  let r := setNetworkConnection 3 (driverOn false false true 30 None false) in
  ¬ (r.1 = Ret 3 ∧
     existsb (invokes "setWifiState") (journal r.2) = true ∧
     existsb (invokes "setDataState") (journal r.2) = true ∧
     existsb (invokes "setAirplaneMode") (journal r.2) = false).
Proof. vm_compute. intros [H _]. discriminate H. Qed.

(** C3 as the code has it.  On a phone in state 0b100 (data on, Wi-Fi
    and airplane mode off), whatever its API level, bootstrap and kind:
    [setNetworkConnection(0b011)] turns airplane mode on, turns Wi-Fi on,
    never calls [setDataState] and returns 0b001; the call that turns
    Wi-Fi on, turns data off, never calls [setAirplaneMode] and returns
    its own argument is [setNetworkConnection(0b010)]. *)
Theorem setNetworkConnection_example (level : Z) (bs : option Bootstrap) (emu : bool) :
  let w := driverOn false false true level bs emu in
  let r3 := setNetworkConnection 3 w in
  let r2 := setNetworkConnection 2 w in
  (r3.1 = Ret 1 ∧
   In (Called (SetAirplaneMode (VBool true))) (journal r3.2) ∧
   In (Called (SetWifiState (VBool true) emu)) (journal r3.2) ∧
   Forall (λ ev, invokes "setDataState" ev = false) (journal r3.2)) ∧
  (r2.1 = Ret 2 ∧
   In (Called (SetWifiState (VBool true) emu)) (journal r2.2) ∧
   In (Called (SetDataState (VBool false) emu)) (journal r2.2) ∧
   Forall (λ ev, invokes "setAirplaneMode" ev = false) (journal r2.2)).
Proof.
  intros w r3 r2. subst r3 r2 w.
  destruct (lessThan level 30) eqn:Hl; destruct bs as [bf|];
    do 2 run_setNetworkConnection Hl; cbn [fst snd journal];
    (split; (split; [reflexivity|]); (split; [pick_event|]);
     (split; [pick_event|]); repeat constructor).
Qed.

(** The claim C5 fails: on a phone with Wi-Fi and data on, two calls of
    [setNetworkConnection(0b111)] return different bitmasks, and the
    second call writes the Wi-Fi state again. *)
Lemma setNetworkConnection_repeat_fails :
  let first := setNetworkConnection 7 (driverOn false true true 30 None false) in
  let second := setNetworkConnection 7 first.2 in
  ¬ (first.1 = second.1 ∧
     forallb (λ ev, negb (isStateWrite ev))
             (drop (length (journal first.2)) (journal second.2)) = true).
Proof. vm_compute. intros [H _]. discriminate H. Qed.

Example setNetworkConnection_repeat_trace :
  let first := setNetworkConnection 7 (driverOn false true true 30 None false) in
  let second := setNetworkConnection 7 first.2 in
  first.1 = Ret 7 ∧ second.1 = Ret 1 ∧
  invocations (drop (length (journal first.2)) (journal second.2))
    = ["isAirplaneModeOn"; "setWifiState"; "isAirplaneModeOn"].
Proof. vm_compute. done. Qed.

(** C5 as the code has it.  On a phone, for a bitmask without the
    airplane bit when Wi-Fi and data are off whenever airplane mode is on,
    and for the bitmask 0b001 in any state: two calls in a row return the
    same bitmask, the requested one, and the second call makes no write. *)
Theorem setNetworkConnection_idempotent
    (b : Z) (a wf d : bool) (level : Z) (bs : option Bootstrap) (emu : bool) :
  (bitand b AIRPLANE_MODE_MASK = 0 ∧ (a = true → wf = false ∧ d = false)) ∨
  (bitand b AIRPLANE_MODE_MASK ≠ 0 ∧ bitand b WIFI_MASK = 0 ∧ bitand b DATA_MASK = 0) →
  let first := setNetworkConnection b (driverOn a wf d level bs emu) in
  let second := setNetworkConnection b first.2 in
  let requested := phoneMask (negb (bitand b AIRPLANE_MODE_MASK =? 0))
                             (negb (bitand b WIFI_MASK =? 0))
                             (negb (bitand b DATA_MASK =? 0)) in
  first.1 = Ret requested ∧ second.1 = Ret requested ∧
  ∃ evs, journal second.2 = journal first.2 ++ evs ∧
         Forall (λ ev, isStateWrite ev = false) evs.
Proof.
  intros H first second requested. subst second first requested.
  rewrite (setNetworkConnection_decode b).
  destruct (Z.eqb_spec (bitand b AIRPLANE_MODE_MASK) 0) as [Ha|Ha];
  destruct (Z.eqb_spec (bitand b WIFI_MASK) 0) as [Hw|Hw];
  destruct (Z.eqb_spec (bitand b DATA_MASK) 0) as [Hd|Hd];
  (destruct H as [[H1 H2]|[H1 [H2 H3]]]; try done);
  clear Ha Hw Hd; simpl negb.
  all: destruct a, wf, d; try (by destruct H2).
  all: clear; destruct (lessThan level 30) eqn:Hl; destruct bs as [bf|].
  all: do 2 run_setNetworkConnection Hl; cbn [fst snd journal].
  all: (split; [reflexivity|]); (split; [reflexivity|]).
  all: eexists; (split; [reflexivity|]); repeat constructor.
Qed.

(** ** Instances on the reference phone *)

Lemma Phone_reliable : reliable Phone.
Proof.
  intros A c d. unfold respond, Phone_Device.
  destruct (phoneAnswer c d) as [a d']. by exists a, d'.
Qed.

Example parseFloat_fraction :
  parseFloatString "0.1" = S754_finite false 7205759403792794 (-56).
Proof. vm_compute. reflexivity. Qed.

Example parseFloat_prefix :
  parseFloatString "  -12.5abc" = S754_finite true 7036874417766400 (-49).
Proof. vm_compute. reflexivity. Qed.

Example parseFloat_exponent :
  parseFloatString "1.e2x" = S754_finite false 7036874417766400 (-46).
Proof. vm_compute. reflexivity. Qed.

Example parseFloat_largest :
  parseFloatString "1.7976931348623157e308" = S754_finite false 9007199254740991 971.
Proof. vm_compute. reflexivity. Qed.

Example parseFloat_overflow : parseFloatString "1e309" = S754_infinity false.
Proof. vm_compute. reflexivity. Qed.

Example parseFloat_least : parseFloatString "5e-324" = GEO_EPSILON.
Proof. vm_compute. reflexivity. Qed.

Example parseFloat_underflow : parseFloatString "2.4e-324" = S754_zero false.
Proof. vm_compute. reflexivity. Qed.

Example parseFloat_no_number : parseFloatString "unknown" = S754_nan.
Proof. vm_compute. reflexivity. Qed.

Example parseFloat_zero : parseFloatString "0.0" = S754_zero false.
Proof. vm_compute. reflexivity. Qed.

Example parseFloat_negative_zero : parseFloatString "-0" = S754_zero true.
Proof. vm_compute. reflexivity. Qed.

(** A no-break space (U+00A0), a byte order mark (U+FEFF) and a tab
    before the digits are skipped. *)
Example parseFloat_unicode_white_space :
  parseFloatString
    (String (ascii_of_nat 194) (String (ascii_of_nat 160)
       (String (ascii_of_nat 239) (String (ascii_of_nat 187) (String (ascii_of_nat 191)
          (String (ascii_of_nat 9) "2.5")))))) =
  S754_finite false 5629499534213120 (-51).
Proof. vm_compute. reflexivity. Qed.

(** The first byte of a no-break space alone is no white space. *)
Example parseFloat_broken_white_space :
  parseFloatString (String (ascii_of_nat 194) "2.5") = S754_nan.
Proof. vm_compute. reflexivity. Qed.

(** The claim C7 fails: a latitude that the bridge delivers as ["0"]
    parses as the number zero, yet [getGeoLocation] reports the epsilon
    sentinel for it, which is not zero. *)
Lemma getGeoLocation_zero_is_not_kept :
  let raw := {| raw_latitude := VStr "0"; raw_longitude := VStr "2.5";
                raw_altitude := VStr "unknown" |} in
  match (getGeoLocation (locatedDriver raw)).1 with
  | Ret l =>
      parseFloat (raw_latitude raw) = S754_zero false ∧
      latitude l = GEO_EPSILON ∧
      ¬ (parseFloat (raw_latitude raw) ≠ S754_nan →
         latitude l = parseFloat (raw_latitude raw))
  | Throw _ => False
  end.
Proof.
  vm_compute. split; [reflexivity|]. split; [reflexivity|].
  intros H. by specialize (H ltac:(discriminate)).
Qed.

(** [getGeoLocation_sentinel] on a phone that reports ["0"], ["2.5"] and
    ["unknown"]. *)
Lemma getGeoLocation_sentinel_witness :
  (getGeoLocation (locatedDriver
     {| raw_latitude := VStr "0"; raw_longitude := VStr "2.5";
        raw_altitude := VStr "unknown" |})).1 =
  Ret {| latitude := GEO_EPSILON;
         longitude := S754_finite false 5629499534213120 (-51);
         altitude := GEO_EPSILON |}.
Proof.
  exact (proj1 (getGeoLocation_sentinel
    (locatedDriver {| raw_latitude := VStr "0"; raw_longitude := VStr "2.5";
                      raw_altitude := VStr "unknown" |})
    {| raw_latitude := VStr "0"; raw_longitude := VStr "2.5";
       raw_altitude := VStr "unknown" |}
    _ eq_refl)).
Defined.

(** [getNetworkConnection_airplane_short_circuit] on a phone in airplane
    mode with Wi-Fi and data on. *)
Lemma getNetworkConnection_airplane_short_circuit_witness :
  (getNetworkConnection (driverOn true true true 30 None false)).1 = Ret 1 ∧
  journal (getNetworkConnection (driverOn true true true 30 None false)).2 =
    [Logged Info "Getting network connection"; Called IsAirplaneModeOn].
Proof.
  destruct (getNetworkConnection_airplane_short_circuit
              (driverOn true true true 30 None false) _ eq_refl) as (Hr & Hj & _).
  split; [exact Hr | exact Hj].
Defined.

(** [setNetworkConnection_airplane_never_writes_data] for the bitmask
    0b101 on a phone with everything off. *)
Lemma setNetworkConnection_airplane_never_writes_data_witness :
  bitand 5 AIRPLANE_MODE_MASK ≠ 0 ∧
  ∃ evs,
    journal (setNetworkConnection 5 (driverOn false false false 30 None false)).2 = evs ∧
    Forall (λ ev, invokes "setDataState" ev = false) evs ∧
    (∃ v, (setNetworkConnection 5 (driverOn false false false 30 None false)).1 = Ret v) ∧
    In suppression evs.
Proof.
  assert (H : bitand 5 AIRPLANE_MODE_MASK ≠ 0) by (vm_compute; discriminate).
  split; [exact H|].
  destruct (setNetworkConnection_airplane_never_writes_data
              5 (driverOn false false false 30 None false) H) as (evs & E & F & R & L).
  exists evs. split; [exact E|]. split; [exact F|].
  split; [exact (R Phone_reliable)|].
  eapply L.
  - vm_compute. reflexivity.
  - vm_compute. discriminate.
  - vm_compute. reflexivity.
Defined.

(** [setGeoLocation_readback_failure] on a phone whose [getGeoLocation]
    is out of order. *)
Lemma setGeoLocation_readback_failure_witness :
  (setGeoLocation noLocation
     (faultyDriver ["getGeoLocation"] (locatedDriver noLocation))).1 =
  Ret {| latitude := GEO_EPSILON; longitude := GEO_EPSILON; altitude := GEO_EPSILON |}.
Proof.
  edestruct (setGeoLocation_readback_failure noLocation
               (faultyDriver ["getGeoLocation"] (locatedDriver noLocation)))
    as [E _].
  - vm_compute. reflexivity.
  - vm_compute. reflexivity.
  - rewrite E. reflexivity.
Defined.



(** The same wrapper around an action that throws: the error reaches the
    caller and the flag is cleared. *)
Example wrapBootstrapDisconnect_failing_action :
  let w := faultyDriver ["setAirplaneMode"]
             (driverOn false false false 30
                (Some {| ignoreUnexpectedShutdown := false |}) false) in
  let r := wrapBootstrapDisconnect
             (call (SetAirplaneMode (VBool true)) ;; ret VUndefined)%js w in
  r.1 = Throw (DeviceError "setAirplaneMode failed") ∧
  bootstrap r.2 = Some {| ignoreUnexpectedShutdown := false |} ∧
  invocations (journal r.2) = ["setAirplaneMode"].
Proof. vm_compute. done. Qed.

(** [mobileGetConnectivity_unknown_service] for the services [wifi] and
    [bluetooth]. *)
Lemma mobileGetConnectivity_unknown_service_witness :
  (mobileGetConnectivity (ServicesMany ["wifi"; "bluetooth"])
     (driverOn false true false 30 None false)).1 = Throw noPromise.
Proof.
  destruct (mobileGetConnectivity_unknown_service
              (ServicesMany ["wifi"; "bluetooth"])
              (driverOn false true false 30 None false))
    as (e & He & Hrel).
  - exists "bluetooth". split; [right; left; reflexivity | reflexivity].
  - rewrite He. f_equal.
    destruct (Hrel Phone_reliable) as (pre & k & post & Hl & Hpre & Hk & ->).
    simpl in Hl. destruct pre as [|a [|b pre]]; simpl in Hl.
    + injection Hl as <- _. discriminate Hk.
    + injection Hl as _ <- _. reflexivity.
    + injection Hl as _ _ Hl. destruct pre; discriminate Hl.
Defined.

(** With a name that every object inherits from [Object.prototype], the
    lookup finds a function, and calling its [value] is what fails. *)
Example mobileGetConnectivity_inherited_name :
  (mobileGetConnectivity (ServicesMany ["wifi"; "toString"])
     (driverOn false true false 30 None false)).1 = Throw notCallable.
Proof. vm_compute. reflexivity. Qed.

(** [setNetworkConnection_idempotent] for the bitmask 0b110 on a phone
    with data on. *)
Lemma setNetworkConnection_idempotent_witness :
  let first := setNetworkConnection 6 (driverOn false false true 29 None false) in
  let second := setNetworkConnection 6 first.2 in
  first.1 = Ret 6 ∧ second.1 = Ret 6 ∧
  ∃ evs, journal second.2 = journal first.2 ++ evs ∧
         Forall (λ ev, isStateWrite ev = false) evs.
Proof.
  apply (setNetworkConnection_idempotent 6 false false true 29 None false).
  left. split; [reflexivity | discriminate].
Defined.


(** * Further properties of the commands *)

Section MoreConnectivity.
Context {D : Type} `{!Device D}.

(** X1. Without any of the three options [mobileSetConnectivity] throws
    the invalid-argument error before it touches the bridge: the driver,
    its device and its journal are left as they were. *)
Theorem mobileSetConnectivity_no_option (opts : SetConnectivityOptions) (w : Driver D) :
  wifi opts = VUndefined → data opts = VUndefined → airplaneMode opts = VUndefined →
  mobileSetConnectivity opts w = (Throw noOptionError, w).
Proof.
  intros Hw Hd Ha. unfold mobileSetConnectivity. by rewrite Hw, Hd, Ha.
Qed.

Lemma mapM_returns {A B} (f : A → M D B) (l : list A) (w : Driver D) :
  (∀ a w0, In a l → ∃ b, f a w0 = (Ret b, w0)) →
  ∃ bs, mapM f l w = (Ret bs, w).
Proof.
  induction l as [|a l IH]; intros Hf; [by exists []|].
  destruct (Hf a w (or_introl eq_refl)) as [b Eb].
  destruct IH as [bs Ebs]; [intros a0 w0 Hin; apply Hf; by right|].
  exists (b :: bs). simpl. unfold bind at 1. rewrite Eb.
  unfold bind at 1. by rewrite Ebs.
Qed.

(** On a device none of whose methods fails, [mobileGetConnectivity]
    returns when every requested name is one of the three services. *)
Lemma mobileGetConnectivity_total (opts : ServicesOption) (w : Driver D) :
  reliable D →
  (∀ k, In k (servicesOf opts) → knownService k = true) →
  ∃ o w', mobileGetConnectivity opts w = (Ret o, w').
Proof.
  intros Hrel Hknown. unfold mobileGetConnectivity.
  destruct (statePromise_runs (includes (servicesOf opts) WIFI_KEY_NAME) IsWifiOn w)
    as (p1 & w1 & E1 & _ & _ & R1).
  unfold bind at 1. rewrite E1.
  destruct (statePromise_runs (includes (servicesOf opts) DATA_KEY_NAME) IsDataOn w1)
    as (p2 & w2 & E2 & _ & _ & R2).
  unfold bind at 1. rewrite E2.
  destruct (statePromise_runs (includes (servicesOf opts) AIRPLANE_MODE_KEY_NAME)
              IsAirplaneModeOn w2) as (p3 & w3 & E3 & _ & _ & R3).
  unfold bind at 1. rewrite E3.
  destruct (R1 Hrel) as [v1 ->], (R2 Hrel) as [v2 ->], (R3 Hrel) as [v3 ->].
  unfold bind at 1, B_all. cbn [map snd firstRejection]. unfold ret at 1. cbv beta iota.
  destruct (mapM_returns
    (λ k, v <- value (lookupKey
                 [("wifi", Ret v1); ("data", Ret v2); ("airplaneMode", Ret v3)] k) ;;
          ret (k, v))
    (servicesOf opts) w3) as [ps Eps].
  - intros k w0 Hin. unfold bind.
    destruct (value_lookupKey v1 v2 v3 k w0) as [[_ [v ->]]|[Hk _]]; [by eexists|].
    specialize (Hknown k Hin). congruence.
  - exists (fromPairs ps), w3. unfold bind at 1. by rewrite Eps.
Qed.

(** X2. On a device none of whose methods fails, [mobileGetConnectivity]
    returns for every request that names supported services only. *)
Theorem mobileGetConnectivity_returns (opts : ServicesOption) (w : Driver D) :
  reliable D →
  (∀ k, In k (servicesOf opts) → knownService k = true) →
  ∃ o w', mobileGetConnectivity opts w = (Ret o, w').
Proof. apply mobileGetConnectivity_total. Qed.

(** X3. The object [mobileGetConnectivity] returns has the requested
    service names as its keys, no more and no less, and every one of
    them reads [undefined], whatever the state of the device. *)
Theorem mobileGetConnectivity_keys (opts : ServicesOption) (w w' : Driver D)
    (o : gmap string Val) :
  mobileGetConnectivity opts w = (Ret o, w') →
  ∀ k, (is_Some (o !! k) ↔ In k (servicesOf opts)) ∧
       (∀ v, o !! k = Some v → v = VUndefined).
Proof.
  intros Hrun k. rewrite (mobileGetConnectivity_values _ _ _ _ k Hrun).
  rewrite <- includes_In. destruct (includes (servicesOf opts) k).
  - split; [split; [done | by eexists] | by intros v [= <-]].
  - split; [split; [by intros [x Hx] | done] | done].
Qed.

(** X4. The two connectivity readers make no call on the bridge but the
    three state queries, whatever the device answers. *)
Theorem connectivity_readers_only_query (opts : ServicesOption) :
  quiet (D:=D) onlyStateQuery getNetworkConnection ∧
  quiet (D:=D) onlyStateQuery (mobileGetConnectivity opts).
Proof.
  split.
  - by apply quiet_getNetworkConnection.
  - by apply quiet_mobileGetConnectivity.
Qed.

Lemma setter_step (cond : bool) (c : bool → Call unit) (setters : list (Element (D:=D)))
    (w : Driver D) :
  ∃ setters' w1,
    (if cond then emu <- getEmulator ;; p <- start (c emu) ;; ret (setters ++ [Promise p])
     else ret setters) w = (Ret setters', w1) ∧
    (reliable D → noneRejected setters → noneRejected setters').
Proof.
  destruct cond.
  - unfold bind, getEmulator, start, ret.
    destruct (respond (c (isEmulator w)) (adb w)) as [r d] eqn:E.
    eexists _, _. split; [done|]. intros Hrel Hnone.
    destruct (Hrel _ (c (isEmulator w)) (adb w)) as (a & d' & E').
    rewrite E in E'. inversion E'; subst.
    unfold noneRejected, promisesOf in *. rewrite omap_app. simpl.
    revert Hnone. generalize (omap (λ it : Element,
      match it with Promise p => Some p | Function _ => None end) setters).
    induction l as [|[u|e] l IH]; simpl; auto.
  - by exists setters, w.
Qed.

(** X5. On a device none of whose methods fails, [mobileSetConnectivity]
    returns as soon as one of the three options is given. *)
Theorem mobileSetConnectivity_returns (opts : SetConnectivityOptions) (w : Driver D) :
  reliable D →
  forallb isUndefined [wifi opts; data opts; airplaneMode opts] = false →
  ∃ w', mobileSetConnectivity opts w = (Ret tt, w').
Proof.
  intros Hrel Hsome. unfold mobileSetConnectivity. rewrite Hsome.
  match goal with |- context [mobileGetConnectivity ?o] =>
    destruct (mobileGetConnectivity_total o w Hrel) as (cs & w1 & E1)
  end.
  { simpl. intros k Hin. rewrite !in_app_iff in Hin.
    destruct (isUndefined (wifi opts)), (isUndefined (data opts)),
      (isUndefined (airplaneMode opts)); simpl in Hin;
      repeat destruct Hin as [Hin|Hin]; subst; try done. }
  unfold bind at 1. rewrite E1.
  match goal with |- context [start (SetWifiState ?v _)] =>
    destruct (setter_step
      (negb (isUndefined (wifi opts)) &&
       negb (strictEquals (getProperty cs "wifi") (VBool (Boolean (wifi opts)))))
      (SetWifiState v) [] w1) as (s1 & w2 & E2 & N2)
  end.
  unfold bind at 1. rewrite E2.
  match goal with |- context [start (SetDataState ?v _)] =>
    destruct (setter_step
      (negb (isUndefined (data opts)) &&
       negb (strictEquals (getProperty cs "data") (VBool (Boolean (data opts)))))
      (SetDataState v) s1 w2) as (s2 & w3 & E3 & N3)
  end.
  unfold bind at 1. rewrite E3.
  specialize (N2 Hrel eq_refl). specialize (N3 Hrel N2).
  unfold bind at 1, ret.
  destruct (negb (isUndefined (airplaneMode opts)) && _); cbv beta iota.
  - destruct (s2 ++ _) eqn:Es; [by eexists|]. rewrite <- Es.
    unfold B_all. unfold noneRejected in N3.
    unfold promisesOf in *. rewrite omap_app. simpl. rewrite app_nil_r.
    rewrite N3. by eexists.
  - destruct s2; [by eexists|]. unfold B_all. unfold noneRejected in N3.
    rewrite N3. by eexists.
Qed.

Lemma respectsUnset_other (opts : SetConnectivityOptions) (ev : Event) :
  invokes "setWifiState" ev = false → invokes "setDataState" ev = false →
  respectsUnset opts ev = true.
Proof. intros Hw Hd. unfold respectsUnset. by rewrite Hw, Hd, !orb_true_r. Qed.

(** X6. [mobileSetConnectivity] leaves alone what its options leave unset:
    without the [wifi] option it never calls [setWifiState], without the
    [data] option it never calls [setDataState], on any device. *)
Theorem mobileSetConnectivity_respects_unset (opts : SetConnectivityOptions) :
  quiet (D:=D) (respectsUnset opts) (mobileSetConnectivity opts).
Proof.
  unfold mobileSetConnectivity.
  destruct (forallb isUndefined _); [apply quiet_throw|].
  apply quiet_bind;
    [apply quiet_mobileGetConnectivity; by apply respectsUnset_other|].
  intros currentState.
  apply quiet_bind.
  { destruct (isUndefined (wifi opts)) eqn:Hw; simpl; [apply quiet_ret|].
    destruct (negb _); [|apply quiet_ret].
    apply quiet_bind; [apply quiet_getEmulator|]. intros emu.
    apply quiet_bind; [|intros; apply quiet_ret].
    apply quiet_start. unfold respectsUnset. rewrite Hw. simpl.
    by destruct (isUndefined (data opts)). }
  intros s1. apply quiet_bind.
  { destruct (isUndefined (data opts)) eqn:Hd; simpl; [apply quiet_ret|].
    destruct (negb _); [|apply quiet_ret].
    apply quiet_bind; [apply quiet_getEmulator|]. intros emu.
    apply quiet_bind; [|intros; apply quiet_ret].
    apply quiet_start. unfold respectsUnset. rewrite Hd. simpl.
    by destruct (isUndefined (wifi opts)). }
  intros s2. apply quiet_bind.
  { destruct (_ && _); apply quiet_ret. }
  intros s3. destruct s3; [apply quiet_ret | apply quiet_B_all].
Qed.

End MoreConnectivity.

Section MoreNetworkConnection.
Context {D : Type} `{!Device D}.

(** X7. The bitmask of [getNetworkConnection] decodes back to what the
    device answered: with airplane mode off, bit 0 is clear, bit 1 is the
    Wi-Fi answer and bit 2 is the data answer. *)
Theorem getNetworkConnection_round_trip (w : Driver D) (d1 d2 d3 : D) (wifiOn dataOn : bool) :
  respond IsAirplaneModeOn (adb w) = (Ret false, d1) →
  respond IsWifiOn d1 = (Ret wifiOn, d2) →
  respond IsDataOn d2 = (Ret dataOn, d3) →
  ∃ v, (getNetworkConnection w).1 = Ret v ∧
       negb (bitand v AIRPLANE_MODE_MASK =? 0) = false ∧
       negb (bitand v WIFI_MASK =? 0) = wifiOn ∧
       negb (bitand v DATA_MASK =? 0) = dataOn.
Proof.
  intros H1 H2 H3. exists (phoneMask false wifiOn dataOn).
  split; [by eapply getNetworkConnection_reads_all|].
  by destruct wifiOn, dataOn.
Qed.

(** X8. Whatever the device answers, a bitmask that
    [getNetworkConnection] returns is one of 0b000, 0b001, 0b010, 0b100 and
    0b110: the airplane bit never comes with another bit. *)
Theorem getNetworkConnection_range (w w' : Driver D) (v : Z) :
  getNetworkConnection w = (Ret v, w') → In v [0; 1; 2; 4; 6].
Proof.
  unfold getNetworkConnection, isWifiOn, call, bind, start, log, await, ret, throw.
  cbn [adb record with_adb].
  destruct (respond IsAirplaneModeOn (adb w)) as [[[|]|e] d1]; cbn.
  - intros [= <- _]. by right; left.
  - destruct (respond IsWifiOn d1) as [[wifiOn|e] d2]; cbn; [|done].
    destruct (respond IsDataOn d2) as [[dataOn|e] d3]; cbn; [|done].
    intros [= <- _]. destruct wifiOn, dataOn; cbn; tauto.
  - done.
Qed.

(** X9. When reading the current state fails, [setNetworkConnection] throws
    the same error and has made no state-changing call. *)
Theorem setNetworkConnection_read_failure (type : Z) (w w1 : Driver D) (e : Error) :
  getNetworkConnection (record w (Logged Info "Setting network connection"))
    = (Throw e, w1) →
  setNetworkConnection type w = (Throw e, w1) ∧
  ∃ evs, journal w1 = journal w ++ evs ∧ Forall (λ ev, isStateWrite ev = false) evs.
Proof.
  intros Hget. split.
  - unfold setNetworkConnection. unfold bind at 1. unfold log at 1. cbv beta iota.
    unfold bind at 1. by rewrite Hget.
  - destruct (quiet_getNetworkConnection (λ ev, negb (isStateWrite ev))
                ltac:(done) ltac:(done) ltac:(done) ltac:(done)
                (record w (Logged Info "Setting network connection")))
      as (evs & E & F).
    rewrite Hget in E. simpl in E.
    exists (Logged Info "Setting network connection" :: evs).
    split; [by rewrite E, <- app_assoc|].
    constructor; [done|]. apply Forall_forall. intros ev Hin.
    apply list_elem_of_In in Hin. rewrite forallb_forall in F.
    specialize (F ev Hin). by apply negb_true_iff in F.
Qed.

Lemma bitand_low (type mask : Z) :
  In mask [1; 2; 4] → bitand (bitand type 7) mask = bitand type mask.
Proof.
  intros Hmask. unfold bitand.
  assert (Hm : toInt32 mask = mask)
    by (destruct Hmask as [<-|[<-|[<-|[]]]]; reflexivity).
  assert (H7 : toInt32 7 = 7) by reflexivity.
  rewrite Hm, H7.
  assert (Hr : 0 ≤ Z.land (toInt32 type) 7 ≤ 7).
  { assert (Hl : Z.land (toInt32 type) 7 = toInt32 type mod 8)
      by (apply (Z.land_ones _ 3); lia).
    rewrite Hl. pose proof (Z.mod_pos_bound (toInt32 type) 8 ltac:(lia)). lia. }
  assert (Hs : toInt32 (Z.land (toInt32 type) 7) = Z.land (toInt32 type) 7).
  { set (x := Z.land (toInt32 type) 7) in *. unfold toInt32.
    change (2 ^ 32) with 4294967296. change (2 ^ 31) with 2147483648.
    rewrite Z.mod_small by lia.
    destruct (Z.leb_spec 2147483648 x); [lia|done]. }
  rewrite Hs, <- Z.land_assoc. f_equal.
  destruct Hmask as [<-|[<-|[<-|[]]]]; reflexivity.
Qed.

(** X10. [setNetworkConnection] looks at the three low bits of its
    argument only: a bitmask and its three low bits give the same run. *)
Theorem setNetworkConnection_low_bits (type : Z) (w : Driver D) :
  setNetworkConnection type w = setNetworkConnection (bitand type 7) w.
Proof.
  unfold setNetworkConnection, AIRPLANE_MODE_MASK, WIFI_MASK, DATA_MASK.
  rewrite !bitand_low by (simpl; tauto). reflexivity.
Qed.

Lemma phased_bind_l {A B} φ1 φ2 (m : M D A) (k : A → M D B) :
  quiet φ1 m → (∀ a, phased φ1 φ2 (k a)) → phased φ1 φ2 (bind m k).
Proof.
  intros Hm Hk w. unfold bind.
  destruct (Hm w) as (evs & E & F).
  destruct (m w) as [[a|e] w1]; simpl in *.
  - destruct (Hk a w1) as (e1 & e2 & E' & F1 & F2).
    exists (evs ++ e1), e2. rewrite E', E, forallb_app, F, F1, <- !app_assoc. done.
  - exists evs, []. by rewrite app_nil_r.
Qed.

Lemma phased_quiet_r {A} φ1 φ2 (m : M D A) : quiet φ2 m → phased φ1 φ2 m.
Proof.
  intros Hm w. destruct (Hm w) as (evs & E & F). by exists [], evs.
Qed.

(** X11. In a run of [setNetworkConnection] the airplane mode is settled
    before Wi-Fi and data: the calls it makes split into a first part
    without [setWifiState] and [setDataState] and a second part without
    [setAirplaneMode] and [broadcastAirplaneMode], on any device. *)
Theorem setNetworkConnection_airplane_first (type : Z) :
  phased (D:=D) noWifiDataWrite noAirplaneWrite (setNetworkConnection type).
Proof.
  unfold setNetworkConnection.
  apply phased_bind_l; [quiet_auto|]. intros _.
  apply phased_bind_l; [quiet_auto|]. intros currentState.
  apply phased_bind_l; [quiet_auto|]. intros _.
  apply phased_quiet_r. quiet_auto.
Qed.

End MoreNetworkConnection.

Section MoreWrapper.
Context {D : Type} `{!Device D}.

(** X12. With a bootstrap attached, an action that throws ends the
    wrapper at once: the error is rethrown, the flag is cleared, and
    neither the bridge nor the bootstrap is restarted (device and journal
    are those the action left). *)
Theorem wrapBootstrapDisconnect_failed_action
    (wrapped : M D Val) (w w1 : Driver D) (e : Error) :
  is_Some (bootstrap w) →
  wrapped (flagged true w) = (Throw e, w1) →
  is_Some (bootstrap w1) →
  wrapBootstrapDisconnect wrapped w = (Throw e, flagged false w1).
Proof.
  intros [b Hb] Hrun [b1 Hb1].
  unfold wrapBootstrapDisconnect.
  unfold bind at 1. unfold getBootstrap at 1. cbv beta iota. rewrite Hb.
  unfold bind at 1. unfold setIgnoreUnexpectedShutdown at 1. rewrite Hb.
  cbv beta iota. fold (flagged true w).
  unfold try_finally. unfold bind at 1. rewrite Hrun.
  unfold setIgnoreUnexpectedShutdown. by rewrite Hb1.
Qed.

(** X13. With a bootstrap attached, after an action that returns the
    wrapper restarts the bridge and then starts the bootstrap with the
    package and the two flags of the driver's options, in this order;
    when the restart of the bridge fails the bootstrap is not started and
    the error is rethrown.  The flag is cleared in both cases. *)
Theorem wrapBootstrapDisconnect_restarts
    (wrapped : M D Val) (w w1 : Driver D) (v : Val) (r2 : Completion unit) (d2 : D) :
  is_Some (bootstrap w) →
  wrapped (flagged true w) = (Ret v, w1) →
  is_Some (bootstrap w1) →
  respond Restart (adb w1) = (r2, d2) →
  let restarted := record (with_adb w1 d2) (Called Restart) in
  let starting := BootstrapStart (appPackage (opts w1)) (disableAndroidWatchers (opts w1))
                                 (acceptSslCerts (opts w1)) in
  match r2 with
  | Throw e => wrapBootstrapDisconnect wrapped w = (Throw e, flagged false restarted)
  | Ret _ =>
      wrapBootstrapDisconnect wrapped w =
        (match (respond starting d2).1 with
         | Ret _ => Ret VUndefined
         | Throw e => Throw e
         end,
         flagged false (record (with_adb restarted (respond starting d2).2)
                               (Called starting)))
  end.
Proof.
  intros [b Hb] Hrun [b1 Hb1] Hres restarted starting.
  assert (Hb3 : bootstrap restarted = Some b1) by exact Hb1.
  assert (Hhead : wrapBootstrapDisconnect wrapped w =
            try_finally
              (call Restart ;;
               o <- getOpts ;;
               bootstrapStart (appPackage o) (disableAndroidWatchers o) (acceptSslCerts o) ;;
               ret VUndefined)
              (setIgnoreUnexpectedShutdown false) w1).
  { unfold wrapBootstrapDisconnect.
    unfold bind at 1. unfold getBootstrap at 1. cbv beta iota. rewrite Hb.
    unfold bind at 1. unfold setIgnoreUnexpectedShutdown at 1. rewrite Hb.
    cbv beta iota. fold (flagged true w).
    unfold try_finally. unfold bind at 1. by rewrite Hrun. }
  assert (Hcall : call Restart w1 =
            (match r2 with Ret u => Ret u | Throw e => Throw e end, restarted)).
  { unfold call, bind, start. rewrite Hres. by destruct r2. }
  destruct r2 as [u|e]; rewrite Hhead; unfold try_finally; unfold bind at 1;
    rewrite Hcall; cbv beta iota.
  - unfold bind at 1, getOpts. cbv beta iota.
    unfold bootstrapStart, getBootstrap, bind, ret.
    rewrite Hb3. change (opts restarted) with (opts w1). fold starting.
    unfold call, bind, start. change (adb restarted) with d2.
    destruct (respond starting d2) as [[u'|e] d3]; cbn.
    all: unfold setIgnoreUnexpectedShutdown; cbn; by rewrite Hb1.
  - unfold setIgnoreUnexpectedShutdown. by rewrite Hb3.
Qed.

End MoreWrapper.

Section MoreGeolocation.
Context {D : Type} `{!Device D}.

(** X14. When the write on the bridge fails, [setGeoLocation] throws that
    error and does not read the location back. *)
Theorem setGeoLocation_write_failure
    (location : RawLocation) (w : Driver D) (e : Error) (d1 : D) :
  respond (SetGeoLocation location (isEmulator w)) (adb w) = (Throw e, d1) →
  setGeoLocation location w =
    (Throw e, record (with_adb w d1) (Called (SetGeoLocation location (isEmulator w)))).
Proof.
  intros Hset. unfold setGeoLocation, bind at 1, getEmulator. cbv beta iota.
  unfold bind at 1, call, bind at 1, start. by rewrite Hset.
Qed.

Lemma orElse_truthy (x : spec_float) : numberTruthy (orElse x GEO_EPSILON) = true.
Proof. unfold orElse. by destruct x. Qed.

(** X15. No coordinate that [getGeoLocation] or [setGeoLocation] returns
    is zero or [NaN]: each of them is a number that converts to [true]. *)
Theorem geolocation_never_zero (w w' : Driver D) (l : GeoLocation) :
  (getGeoLocation w = (Ret l, w') ∨ ∃ location, setGeoLocation location w = (Ret l, w')) →
  numberTruthy (latitude l) = true ∧
  numberTruthy (longitude l) = true ∧
  numberTruthy (altitude l) = true.
Proof.
  assert (Hget : ∀ w0 w1, getGeoLocation w0 = (Ret l, w1) →
            numberTruthy (latitude l) = true ∧ numberTruthy (longitude l) = true ∧
            numberTruthy (altitude l) = true).
  { intros w0 w1. unfold getGeoLocation, bind, ret.
    destruct (call GetGeoLocation w0) as [[raw|e] w2]; [|done].
    intros [= <- _]. simpl. by rewrite !orElse_truthy. }
  intros [H|[location H]]; [by eapply Hget|].
  revert H. unfold setGeoLocation, bind at 1, getEmulator. cbv beta iota.
  unfold bind at 1. destruct (call _ w) as [[u|e] w1]; [|done].
  unfold try_catch. destruct (getGeoLocation w1) as [[l'|e] w2] eqn:E.
  - intros [= -> _]. by eapply Hget.
  - unfold bind, log, ret. by intros [= <- _].
Qed.

End MoreGeolocation.

(** ** The commands on the reference phone *)

(** What [setNetworkConnection] leaves on a phone and returns: airplane
    mode is the requested one; Wi-Fi and data are written when the
    requested state differs from the visible one (off while airplane mode
    is on), data only when airplane mode is not requested; the bitmask
    returned has the airplane bit as requested. *)
Lemma setNetworkConnection_phone
    (b : Z) (a wf d : bool) (level : Z) (bs : option Bootstrap) (emu : bool) :
  let ra := negb (bitand b AIRPLANE_MODE_MASK =? 0) in
  let rw := negb (bitand b WIFI_MASK =? 0) in
  let rd := negb (bitand b DATA_MASK =? 0) in
  let r := setNetworkConnection b (driverOn a wf d level bs emu) in
  toggles (adb r.2) =
    (ra,
     if eqb rw (negb a && wf) then wf else rw,
     if ra || eqb rd (negb a && d) then d else rd) ∧
  ∃ v, r.1 = Ret v ∧ negb (bitand v AIRPLANE_MODE_MASK =? 0) = ra.
Proof.
  intros ra rw rd r. subst ra rw rd r.
  rewrite (setNetworkConnection_decode b).
  destruct (bitand b AIRPLANE_MODE_MASK =? 0), (bitand b WIFI_MASK =? 0),
    (bitand b DATA_MASK =? 0); simpl negb.
  all: destruct a, wf, d.
  all: destruct (lessThan level 30) eqn:Hl; destruct bs as [bf|].
  all: run_setNetworkConnection Hl; (split; [reflexivity|]).
  all: eexists; split; reflexivity.
Qed.

(** X16. On a phone whose Wi-Fi and data are off whenever airplane mode
    is on, [setNetworkConnection] with a bitmask without the airplane bit
    leaves the phone in the requested state: airplane mode off, Wi-Fi and
    data as the two bits say. *)
Theorem setNetworkConnection_reaches_state
    (b : Z) (a wf d : bool) (level : Z) (bs : option Bootstrap) (emu : bool) :
  bitand b AIRPLANE_MODE_MASK = 0 →
  (a = true → wf = false ∧ d = false) →
  toggles (adb (setNetworkConnection b (driverOn a wf d level bs emu)).2) =
    (false, negb (bitand b WIFI_MASK =? 0), negb (bitand b DATA_MASK =? 0)).
Proof.
  intros Ha Hpre.
  destruct (setNetworkConnection_phone b a wf d level bs emu) as [-> _].
  rewrite Ha. simpl.
  destruct a.
  - destruct Hpre as [-> ->]; [done|].
    by destruct (negb (bitand b WIFI_MASK =? 0)), (negb (bitand b DATA_MASK =? 0)).
  - by destruct (negb (bitand b WIFI_MASK =? 0)), (negb (bitand b DATA_MASK =? 0)), wf, d.
Qed.

(** X17. On a phone, [setNetworkConnection] with the airplane bit set
    leaves airplane mode on and the data toggle as it was, whatever the
    data bit asks for. *)
Theorem setNetworkConnection_airplane_keeps_data
    (b : Z) (a wf d : bool) (level : Z) (bs : option Bootstrap) (emu : bool) :
  bitand b AIRPLANE_MODE_MASK ≠ 0 →
  let p := adb (setNetworkConnection b (driverOn a wf d level bs emu)).2 in
  airplaneModeOn p = true ∧ dataOn p = d.
Proof.
  intros Ha p. subst p.
  destruct (setNetworkConnection_phone b a wf d level bs emu) as [E _].
  apply Z.eqb_neq in Ha. rewrite Ha in E. simpl in E.
  unfold toggles in E. by injection E as -> _ ->.
Qed.

(** X18. On a phone, [setNetworkConnection] returns a bitmask, and its
    airplane bit is the one requested, in every state of the phone. *)
Theorem setNetworkConnection_returns_airplane_bit
    (b : Z) (a wf d : bool) (level : Z) (bs : option Bootstrap) (emu : bool) :
  ∃ v, (setNetworkConnection b (driverOn a wf d level bs emu)).1 = Ret v ∧
       (bitand v AIRPLANE_MODE_MASK =? 0) = (bitand b AIRPLANE_MODE_MASK =? 0).
Proof.
  destruct (setNetworkConnection_phone b a wf d level bs emu) as [_ [v [E Hv]]].
  exists v. split; [done|].
  by destruct (bitand v AIRPLANE_MODE_MASK =? 0), (bitand b AIRPLANE_MODE_MASK =? 0).
Qed.

(** The run of [toggleFlightMode] on a phone. *)
Lemma toggleFlightMode_phone (w : Driver Phone) :
  let on := negb (airplaneModeOn (adb w)) in
  toggleFlightMode w =
    (Ret tt,
     switched (lessThan (apiLevel (adb w)) 30) on
       (record (record w (Called IsAirplaneModeOn))
               (Logged Info (String.append "Turning flight mode " (onOrOff on))))).
Proof.
  destruct w as [[a wf d lvl loc] bs emu o j]. cbv zeta. cbn [adb airplaneModeOn apiLevel].
  match goal with |- ?m ?w = (?r, ?w') => change (runs m w r w') end.
  unfold toggleFlightMode.
  eapply runs_bind; [reflexivity|]. cbv beta zeta.
  eapply runs_bind; [reflexivity|]. cbv beta.
  by apply switch_phone.
Qed.

(** X19. On a phone each toggle command returns, inverts its own toggle
    and leaves the other two as they were. *)
Theorem toggle_commands_flip (w : Driver Phone) :
  let '(a, wf, d) := toggles (adb w) in
  (toggleData w).1 = Ret tt ∧ toggles (adb (toggleData w).2) = (a, wf, negb d) ∧
  (toggleWiFi w).1 = Ret tt ∧ toggles (adb (toggleWiFi w).2) = (a, negb wf, d) ∧
  (toggleFlightMode w).1 = Ret tt ∧ toggles (adb (toggleFlightMode w).2) = (negb a, wf, d).
Proof.
  rewrite toggleFlightMode_phone.
  destruct w as [[a wf d lvl loc] bs emu o j]. cbn [toggles adb airplaneModeOn wifiOn dataOn].
  split; [by destruct bs|]. split; [by destruct bs|].
  split; [by destruct bs|]. split; [by destruct bs|]. done.
Qed.

(** X20. On a phone [toggleFlightMode] writes the inverted airplane mode
    once and, after it, broadcasts the new mode exactly when the API level
    is below 30. *)
Theorem toggleFlightMode_broadcast (w : Driver Phone) :
  let on := VBool (negb (airplaneModeOn (adb w))) in
  ∃ evs, journal (toggleFlightMode w).2 = journal w ++ evs ∧
    List.filter isAirplaneWrite evs =
      Called (SetAirplaneMode on) ::
      (if lessThan (apiLevel (adb w)) 30 then [Called (BroadcastAirplaneMode on)] else []).
Proof.
  intros on. rewrite toggleFlightMode_phone.
  set (w2 := record _ (Logged _ _)).
  exists ([Called IsAirplaneModeOn;
           Logged Info (String.append "Turning flight mode "
                          (onOrOff (negb (airplaneModeOn (adb w)))))] ++
          switchEvents (lessThan (apiLevel (adb w)) 30) (negb (airplaneModeOn (adb w))) w2).
  split.
  - cbn [snd switched journal w2 record]. by rewrite <- !app_assoc.
  - unfold switchEvents, restartEvents. cbn [bootstrap w2 record].
    by destruct (bootstrap w), (lessThan (apiLevel (adb w)) 30).
Qed.

(** ** The settings screen *)

Lemma indexOfFrom_spec (xs : list string) (x : string) (i : Z) :
  0 ≤ i → (indexOfFrom i xs x =? -1) = negb (bool_decide (x ∈ xs)).
Proof.
  revert i. induction xs as [|y ys IH]; intros i Hi; simpl.
  - done.
  - destruct (String.eqb_spec y x) as [->|Hne].
    + rewrite bool_decide_eq_true_2 by left. simpl. apply Z.eqb_neq. lia.
    + rewrite IH by lia. f_equal. apply bool_decide_ext.
      rewrite elem_of_cons. split; [tauto|]. intros [E|E]; [by subst|done].
Qed.

Lemma receivedBy_app {D A} (m : M (Recorder D) A) (w : Driver (Recorder D)) rs :
  received (adb (m w).2) = received (adb w) ++ rs → receivedBy m w = rs.
Proof. intros E. unfold receivedBy. rewrite E. apply drop_app_length. Qed.

Section ScreenProperties.
Context {D : Type} `{!Device D} `{!Screen D}.

(** X21. On an emulator [toggleLocationServices] never moves through the
    settings: whatever the device answers, it opens no settings activity,
    sends no key event and waits for nothing. *)
Theorem toggleLocationServices_emulator_no_navigation (w : Driver (Recorder D)) :
  isEmulator w = true →
  forallb (λ r, negb (isNavigation r)) (receivedBy toggleLocationServices w) = true.
Proof.
  intros Hemu.
  destruct w as [[d rs] bs emu o j]. simpl in Hemu. subst emu.
  unfold receivedBy, toggleLocationServices.
  unfold bind, log, call, bind, start, await, getEmulator, ui, ret, throw, record, with_adb.
  cbn [adb isEmulator journal bootstrap opts respond Recorder_Device device received].
  unfold respond at 1, Recorder_Device. cbn [device received].
  destruct (respond GetApiLevel d) as [[api|e] d1]; cbn.
  - destruct (operate GetLocationProviders d1) as [[ps|e] d2]; cbn.
    + destruct (operate (ToggleGPSLocationProvider _) d2) as [r d3]; cbn.
      rewrite <- !app_assoc. by rewrite drop_app_length.
    + rewrite <- !app_assoc. by rewrite drop_app_length.
  - by rewrite drop_app_length.
Qed.

(** X22. On an emulator whose bridge gives the API level and the location
    providers, [toggleLocationServices] makes one more call: it switches
    the GPS provider on when [gps] is not among the providers and off when
    it is. *)
Theorem toggleLocationServices_emulator_toggles_gps
    (w : Driver (Recorder D)) (api : Z) (d1 d2 : D) (ps : list string) :
  isEmulator w = true →
  respond GetApiLevel (device (adb w)) = (Ret api, d1) →
  operate GetLocationProviders d1 = (Ret ps, d2) →
  receivedBy toggleLocationServices w =
    [Bridge GetApiLevel; Ui GetLocationProviders;
     Ui (ToggleGPSLocationProvider (negb (bool_decide ("gps" ∈ ps))))].
Proof.
  intros Hemu Hapi Hps.
  destruct w as [[d rs] bs emu o j]. simpl in Hemu, Hapi. subst emu.
  unfold receivedBy, toggleLocationServices.
  unfold bind, log, call, bind, start, await, getEmulator, ui, ret, throw, record, with_adb.
  cbn [adb isEmulator journal bootstrap opts device received].
  unfold respond at 1, Recorder_Device. cbn [device received].
  rewrite Hapi. cbn. rewrite Hps. cbn.
  unfold indexOf. rewrite indexOfFrom_spec by done. rewrite negb_involutive.
  destruct (operate (ToggleGPSLocationProvider _) d2) as [r d3]; cbn.
  rewrite <- !app_assoc. by rewrite drop_app_length.
Qed.

(** X23. On a real device whose API level is 15 or less
    [toggleLocationServices] throws [NotYetImplementedError] after reading
    the API level, without any call on the screen. *)
Theorem toggleLocationServices_old_device
    (w : Driver (Recorder D)) (api : Z) (d1 : D) :
  isEmulator w = false →
  respond GetApiLevel (device (adb w)) = (Ret api, d1) →
  api ≤ 15 →
  (toggleLocationServices w).1 = Throw NotYetImplementedError ∧
  receivedBy toggleLocationServices w = [Bridge GetApiLevel].
Proof.
  intros Hemu Hapi Hold.
  destruct w as [[d rs] bs emu o j]. simpl in Hemu, Hapi. subst emu.
  assert (Hlt : (15 <? api) = false) by (apply Z.ltb_ge; lia).
  unfold receivedBy.
  match goal with
  | |- context [toggleLocationServices ?w] =>
      destruct (toggleLocationServices w) as [r w'] eqn:E
  end.
  revert E. unfold toggleLocationServices.
  unfold bind, log, call, bind, start, await, getEmulator, ui, ret, throw, record, with_adb.
  cbn [adb isEmulator journal bootstrap opts device received].
  unfold respond at 1, Recorder_Device. cbn [device received].
  rewrite Hapi. cbn [fst snd adb received]. rewrite Hlt.
  intros [= <- <-]. cbn. split; [done|]. by rewrite drop_app_length.
Qed.

(** X24. [toggleSetting] called without a key sequence ([undefined], not
    [null]) opens the settings activity and then throws a [TypeError]: no
    key event is sent. *)
Theorem toggleSetting_without_keys
    (setting : string) (w : Driver (Recorder D)) (d1 : D) :
  operate (OpenSettingsActivity setting) (device (adb w)) = (Ret tt, d1) →
  (toggleSetting setting KeysUndefined w).1 = Throw (TypeError "preKeySeq is not iterable") ∧
  receivedBy (toggleSetting setting KeysUndefined) w = [Ui (OpenSettingsActivity setting)].
Proof.
  intros Hopen.
  destruct w as [[d rs] bs emu o j]. simpl in Hopen.
  unfold receivedBy.
  match goal with
  | |- context [toggleSetting ?s ?k ?w] => destruct (toggleSetting s k w) as [r w'] eqn:E
  end.
  revert E. unfold toggleSetting.
  unfold bind at 1, ui at 1. cbn [adb operate Recorder_Screen device received].
  rewrite Hopen. cbn.
  intros [= <- <-]. cbn. split; [done|]. by rewrite drop_app_length.
Qed.

End ScreenProperties.

(** ** The commands on a handset *)

Lemma receiving_nil {D} (w : Driver (Recorder D)) : receiving w [] = w.
Proof. destruct w as [[d rs] bs emu o j]. unfold receiving, with_adb. simpl. by rewrite app_nil_r. Qed.

Lemma receiving_app {D} (w : Driver (Recorder D)) (rs1 rs2 : list Received) :
  receiving (receiving w rs1) rs2 = receiving w (rs1 ++ rs2).
Proof. unfold receiving, with_adb. simpl. by rewrite app_assoc. Qed.

Lemma doKey_handset (key : Z) (w : Driver (Recorder Handset)) :
  doKey key w = (Ret tt, receiving w (keyPress key)).
Proof.
  destruct w as [[h rs] bs emu o j].
  unfold doKey, bind, delay, ui, receiving, with_adb, keyPress. simpl.
  by rewrite <- app_assoc.
Qed.

Lemma forEach_doKey (keys : list Z) (w : Driver (Recorder Handset)) :
  forEach keys doKey w = (Ret tt, receiving w (flat_map keyPress keys)).
Proof.
  revert w. induction keys as [|key keys IH]; intros w.
  - simpl. by rewrite receiving_nil.
  - cbn [forEach flat_map]. unfold bind at 1. rewrite doKey_handset, IH.
    by rewrite receiving_app.
Qed.

(** The run of [toggleSetting] on a handset. *)
Lemma toggleSetting_handset (setting : string) (keys : list Z)
    (w : Driver (Recorder Handset)) :
  ∃ w', toggleSetting setting (Keys keys) w = (Ret tt, w') ∧
        received (adb w') = received (adb w) ++ settingReceived setting keys w.
Proof.
  unfold toggleSetting. cbv zeta iota.
  destruct w as [[[p ps [fp fa] pop] rs] bs emu o j].
  unfold bind at 1, ui at 1. cbn [adb operate Recorder_Screen device received
    Handset_Screen handsetAnswer with_adb bootstrap isEmulator opts journal].
  unfold bind at 1. rewrite forEach_doKey.
  unfold settingReceived, restartsReceived, receiving.
  cbn [adb device received with_adb bootstrap isEmulator opts journal focused popup].
  destruct pop, bs as [b|]; lazy -[app flat_map keyPress]; eexists;
    (split; [reflexivity|]); cbn [adb received]; rewrite <- ?app_assoc; reflexivity.
Qed.

(** X25. On a handset [toggleSetting] opens the settings activity, sends
    the given keys (up, up, down for [null]), each after a delay of two
    seconds, reads the focused activity, clicks, and goes back; it
    returns also when no pop-up follows the click and the wait times out,
    and confirms the pop-up with right and a click when there is one. *)
Theorem toggleSetting_handset_receives
    (setting : string) (preKeySeq : KeySeq) (keys : list Z)
    (w : Driver (Recorder Handset)) :
  preKeySeq = Keys keys ∨
  (preKeySeq = KeysNull ∧ keys = [KeyCode.UP; KeyCode.UP; KeyCode.DOWN]) →
  (toggleSetting setting preKeySeq w).1 = Ret tt ∧
  receivedBy (toggleSetting setting preKeySeq) w = settingReceived setting keys w.
Proof.
  intros Hkeys.
  assert (E : toggleSetting setting preKeySeq w = toggleSetting setting (Keys keys) w)
    by (destruct Hkeys as [->|[-> ->]]; reflexivity).
  destruct (toggleSetting_handset setting keys w) as [w' [Hrun Hrec]].
  unfold receivedBy. rewrite E, Hrun. split; [done|].
  cbn [snd]. rewrite Hrec. apply drop_app_length.
Qed.

(** X26. On a real handset above API level 15 [toggleLocationServices]
    returns; after reading the API level it sends a first key up, except
    on level 16, and then goes through the location settings with the
    keys of the level: up, up, down on level 16; right, right, up below
    level 28; right from level 28 on. *)
Theorem toggleLocationServices_handset_keys (w : Driver (Recorder Handset)) :
  isEmulator w = false →
  15 < apiLevel (phone (device (adb w))) →
  let level := apiLevel (phone (device (adb w))) in
  let seq := if level =? 16 then [KeyCode.UP; KeyCode.UP; KeyCode.DOWN]
             else if level <? 28 then [KeyCode.RIGHT; KeyCode.RIGHT; KeyCode.UP]
             else [KeyCode.RIGHT] in
  (toggleLocationServices w).1 = Ret tt ∧
  receivedBy toggleLocationServices w =
    [Bridge GetApiLevel] ++
    (if level =? 16 then [] else [Ui (Keyevent KeyCode.UP)]) ++
    settingReceived "LOCATION_SOURCE_SETTINGS" seq w.
Proof.
  intros Hemu Hnew level seq.
  destruct w as [[[p ps [fp fa] pop] rs] bs emu o j].
  simpl in Hemu, Hnew, level. subst emu.
  assert (Hlt : (15 <? level) = true) by (apply Z.ltb_lt; done).
  set (w := {| adb := {| device := {| phone := p; providers := ps; focused := (fp, fa);
                                      popup := pop |}; received := rs |};
               bootstrap := bs; isEmulator := false; opts := o; journal := j |}).
  set (w1 := record (with_adb (record w (Logged Info "Toggling location services"))
                       {| device := device (adb w); received := rs ++ [Bridge GetApiLevel] |})
                    (Called GetApiLevel)).
  assert (Hhead : toggleLocationServices w =
            ((seq <- (if level =? 16 then
                        ret ([KeyCode.UP; KeyCode.UP] ++ [KeyCode.DOWN])
                      else if level <? 28 then
                        ui (Keyevent KeyCode.UP) ;;
                        ret [KeyCode.RIGHT; KeyCode.RIGHT; KeyCode.UP]
                      else if 28 <=? level then
                        ui (Keyevent KeyCode.UP) ;;
                        ret [KeyCode.RIGHT]
                      else
                        ret [KeyCode.UP; KeyCode.UP]) ;;
              toggleSetting "LOCATION_SOURCE_SETTINGS" (Keys seq)) w1)).
  { unfold toggleLocationServices.
    unfold bind at 1, log at 1. unfold bind at 1, call at 1, bind at 1, start at 1.
    unfold respond at 1, Recorder_Device, respond at 1, Handset_Device,
      respond at 1, Phone_Device.
    destruct p as [a wf d lvl loc]. cbn [adb record with_adb device phone phoneAnswer received await ret].
    unfold bind at 1, getEmulator at 1.
    cbn [isEmulator record with_adb w]. cbv iota.
    change (apiLevel (phone (device (adb w)))) with level. rewrite Hlt. reflexivity. }
  unfold receivedBy. rewrite Hhead. clear Hhead.
  assert (H28 : (level <? 28) = false → (28 <=? level) = true)
    by (intros H; apply Z.leb_le; apply Z.ltb_ge in H; lia).
  subst seq.
  destruct (level =? 16) eqn:H16; [|destruct (level <? 28) eqn:Hl; [|rewrite H28 by done]].
  - match goal with
    | |- context [bind ?m ?k w1] =>
        change (bind m k w1) with
          (toggleSetting "LOCATION_SOURCE_SETTINGS"
             (Keys [KeyCode.UP; KeyCode.UP; KeyCode.DOWN]) w1)
    end.
    destruct (toggleSetting_handset "LOCATION_SOURCE_SETTINGS"
                [KeyCode.UP; KeyCode.UP; KeyCode.DOWN] w1) as [w' [-> Hrec]].
    split; [done|]. cbn [snd]. rewrite Hrec. cbn [w1 record with_adb adb received w].
    rewrite <- app_assoc. rewrite drop_app_length. reflexivity.
  - set (w2 := receiving w1 [Ui (Keyevent KeyCode.UP)]).
    match goal with
    | |- context [bind ?m ?k w1] =>
        change (bind m k w1) with
          (toggleSetting "LOCATION_SOURCE_SETTINGS"
             (Keys [KeyCode.RIGHT; KeyCode.RIGHT; KeyCode.UP]) w2)
    end.
    destruct (toggleSetting_handset "LOCATION_SOURCE_SETTINGS"
                [KeyCode.RIGHT; KeyCode.RIGHT; KeyCode.UP] w2) as [w' [-> Hrec]].
    split; [done|]. cbn [snd]. rewrite Hrec.
    cbn [w2 receiving w1 record with_adb adb received w device].
    rewrite <- !app_assoc. rewrite drop_app_length. reflexivity.
  - set (w2 := receiving w1 [Ui (Keyevent KeyCode.UP)]).
    match goal with
    | |- context [bind ?m ?k w1] =>
        change (bind m k w1) with
          (toggleSetting "LOCATION_SOURCE_SETTINGS" (Keys [KeyCode.RIGHT]) w2)
    end.
    destruct (toggleSetting_handset "LOCATION_SOURCE_SETTINGS" [KeyCode.RIGHT] w2)
      as [w' [-> Hrec]].
    split; [done|]. cbn [snd]. rewrite Hrec.
    cbn [w2 receiving w1 record with_adb adb received w device].
    rewrite <- !app_assoc. rewrite drop_app_length. reflexivity.
Qed.

(** ** The further properties at concrete inputs *)

(** [mobileSetConnectivity_no_option] for the empty options object. *)
Lemma mobileSetConnectivity_no_option_witness :
  mobileSetConnectivity
    {| wifi := VUndefined; data := VUndefined; airplaneMode := VUndefined |}
    (driverOn false true false 30 None false) =
  (Throw noOptionError, driverOn false true false 30 None false).
Proof.
  apply (mobileSetConnectivity_no_option
           {| wifi := VUndefined; data := VUndefined; airplaneMode := VUndefined |}
           (driverOn false true false 30 None false)); reflexivity.
Defined.

(** [mobileGetConnectivity_returns] for the services [wifi] and [data] on
    a phone. *)
Lemma mobileGetConnectivity_returns_witness :
  ∃ o w', mobileGetConnectivity (ServicesMany ["wifi"; "data"])
            (driverOn false true false 30 None false) = (Ret o, w').
Proof.
  apply (mobileGetConnectivity_returns (ServicesMany ["wifi"; "data"])
           (driverOn false true false 30 None false)).
  - exact Phone_reliable.
  - intros k [<-|[<-|[]]]; reflexivity.
Defined.

(** [mobileGetConnectivity_keys] for the services [wifi] and [data] on a
    phone with Wi-Fi on. *)
Lemma mobileGetConnectivity_keys_witness :
  match (mobileGetConnectivity (ServicesMany ["wifi"; "data"])
           (driverOn false true false 30 None false)).1 with
  | Ret o => o !! "wifi" = Some VUndefined ∧ o !! "airplaneMode" = None
  | Throw _ => False
  end.
Proof.
  destruct (mobileGetConnectivity (ServicesMany ["wifi"; "data"])
              (driverOn false true false 30 None false)) as [[o|e] w'] eqn:E.
  - pose proof (mobileGetConnectivity_keys _ _ _ _ E) as H. simpl.
    destruct (H "wifi") as [[_ Hin] Hv].
    destruct (H "airplaneMode") as [[Hout _] _].
    split.
    + destruct Hin as [v Ev]; [left; reflexivity|]. rewrite Ev. f_equal. by apply Hv.
    + destruct (o !! "airplaneMode") as [v|] eqn:Ev; [|reflexivity].
      destruct (Hout (ex_intro _ v eq_refl)) as [Hk|[Hk|[]]]; discriminate Hk.
  - vm_compute in E. discriminate.
Defined.

(** [mobileSetConnectivity_returns] for the option [wifi] on a phone. *)
Lemma mobileSetConnectivity_returns_witness :
  ∃ w', mobileSetConnectivity
          {| wifi := VBool true; data := VUndefined; airplaneMode := VUndefined |}
          (driverOn false false false 30 None false) = (Ret tt, w').
Proof.
  apply (mobileSetConnectivity_returns
           {| wifi := VBool true; data := VUndefined; airplaneMode := VUndefined |}
           (driverOn false false false 30 None false)).
  - exact Phone_reliable.
  - reflexivity.
Defined.

(** [getNetworkConnection_round_trip] on a phone with Wi-Fi on. *)
Lemma getNetworkConnection_round_trip_witness :
  ∃ v, (getNetworkConnection (driverOn false true false 30 None false)).1 = Ret v ∧
       negb (bitand v AIRPLANE_MODE_MASK =? 0) = false ∧
       negb (bitand v WIFI_MASK =? 0) = true ∧
       negb (bitand v DATA_MASK =? 0) = false.
Proof.
  eapply (getNetworkConnection_round_trip (driverOn false true false 30 None false));
    reflexivity.
Defined.

(** [getNetworkConnection_range] on a phone with Wi-Fi and data on. *)
Lemma getNetworkConnection_range_witness :
  (getNetworkConnection (driverOn false true true 30 None false)).1 = Ret 6 ∧
  In 6 [0; 1; 2; 4; 6].
Proof.
  split; [vm_compute; reflexivity|].
  apply (getNetworkConnection_range (driverOn false true true 30 None false)
           (getNetworkConnection (driverOn false true true 30 None false)).2 6).
  vm_compute. reflexivity.
Defined.

(** [setNetworkConnection_read_failure] on a phone whose [isAirplaneModeOn]
    is out of order. *)
Lemma setNetworkConnection_read_failure_witness :
  (setNetworkConnection 6
     (faultyDriver ["isAirplaneModeOn"] (driverOn false false false 30 None false))).1 =
  Throw (DeviceError "isAirplaneModeOn failed").
Proof.
  edestruct (setNetworkConnection_read_failure 6
               (faultyDriver ["isAirplaneModeOn"] (driverOn false false false 30 None false)))
    as [E _].
  - vm_compute. reflexivity.
  - rewrite E. reflexivity.
Defined.

(** [wrapBootstrapDisconnect_failed_action] around an airplane mode write
    that is out of order. *)
Lemma wrapBootstrapDisconnect_failed_action_witness :
  let w := faultyDriver ["setAirplaneMode"]
             (driverOn false false false 30
                (Some {| ignoreUnexpectedShutdown := false |}) false) in
  let wrapped := (call (SetAirplaneMode (VBool true)) ;; ret VUndefined)%js in
  (wrapBootstrapDisconnect wrapped w).1 = Throw (DeviceError "setAirplaneMode failed") ∧
  journal (wrapBootstrapDisconnect wrapped w).2 = [Called (SetAirplaneMode (VBool true))].
Proof.
  intros w wrapped.
  assert (Hb : is_Some (bootstrap w)) by (eexists; reflexivity).
  assert (Hrun : wrapped (flagged true w) =
                 (Throw (DeviceError "setAirplaneMode failed"), (wrapped (flagged true w)).2))
    by (vm_compute; reflexivity).
  assert (Hb1 : is_Some (bootstrap (wrapped (flagged true w)).2))
    by (vm_compute; eexists; reflexivity).
  rewrite (wrapBootstrapDisconnect_failed_action wrapped w _ _ Hb Hrun Hb1).
  split; vm_compute; reflexivity.
Defined.

(** [wrapBootstrapDisconnect_restarts] around the airplane mode write on
    a phone with a bootstrap attached. *)
Lemma wrapBootstrapDisconnect_restarts_witness :
  let w := driverOn false false false 30
             (Some {| ignoreUnexpectedShutdown := false |}) false in
  let wrapped := (call (SetAirplaneMode (VBool true)) ;; ret VUndefined)%js in
  invocations (journal (wrapBootstrapDisconnect wrapped w).2) =
    ["setAirplaneMode"; "restart"; "start"].
Proof.
  intros w wrapped.
  assert (Hb : is_Some (bootstrap w)) by (eexists; reflexivity).
  assert (Hrun : wrapped (flagged true w) = (Ret VUndefined, (wrapped (flagged true w)).2))
    by (vm_compute; reflexivity).
  assert (Hb1 : is_Some (bootstrap (wrapped (flagged true w)).2))
    by (vm_compute; eexists; reflexivity).
  assert (Hres : respond Restart (adb (wrapped (flagged true w)).2) =
                 (Ret tt, adb (wrapped (flagged true w)).2))
    by (vm_compute; reflexivity).
  pose proof (wrapBootstrapDisconnect_restarts wrapped w _ _ _ _ Hb Hrun Hb1 Hres) as H.
  cbv zeta iota in H. rewrite H. vm_compute. reflexivity.
Defined.

(** [setGeoLocation_write_failure] on a phone whose [setGeoLocation] is
    out of order. *)
Lemma setGeoLocation_write_failure_witness :
  let w := faultyDriver ["setGeoLocation"] (locatedDriver noLocation) in
  (setGeoLocation noLocation w).1 = Throw (DeviceError "setGeoLocation failed") ∧
  invocations (journal (setGeoLocation noLocation w).2) = ["setGeoLocation"].
Proof.
  intros w.
  erewrite (setGeoLocation_write_failure noLocation w).
  - split; vm_compute; reflexivity.
  - vm_compute. reflexivity.
Defined.

(** [geolocation_never_zero] on a phone that reports ["0"], ["-0.0"] and
    ["north"]. *)
Lemma geolocation_never_zero_witness :
  match (getGeoLocation (locatedDriver
           {| raw_latitude := VStr "0"; raw_longitude := VStr "-0.0";
              raw_altitude := VStr "north" |})).1 with
  | Ret l => numberTruthy (latitude l) = true ∧
             numberTruthy (longitude l) = true ∧
             numberTruthy (altitude l) = true
  | Throw _ => False
  end.
Proof.
  destruct (getGeoLocation (locatedDriver
              {| raw_latitude := VStr "0"; raw_longitude := VStr "-0.0";
                 raw_altitude := VStr "north" |})) as [[l|e] w'] eqn:E.
  - exact (geolocation_never_zero _ _ _ (or_introl E)).
  - vm_compute in E. discriminate.
Defined.

(** [setNetworkConnection_reaches_state] for the bitmask 0b110 on a phone
    in airplane mode. *)
Lemma setNetworkConnection_reaches_state_witness :
  toggles (adb (setNetworkConnection 6 (driverOn true false false 29 None false)).2) =
    (false, true, true).
Proof.
  apply (setNetworkConnection_reaches_state 6 true false false 29 None false).
  - reflexivity.
  - intros _. split; reflexivity.
Defined.

(** [setNetworkConnection_airplane_keeps_data] for the bitmask 0b101 on a
    phone with everything off. *)
Lemma setNetworkConnection_airplane_keeps_data_witness :
  let p := adb (setNetworkConnection 5 (driverOn false false false 30 None false)).2 in
  airplaneModeOn p = true ∧ dataOn p = false.
Proof.
  apply (setNetworkConnection_airplane_keeps_data 5 false false false 30 None false).
  vm_compute. discriminate.
Defined.

(** [toggleLocationServices_emulator_no_navigation] on an emulated
    handset. *)
Lemma toggleLocationServices_emulator_no_navigation_witness :
  forallb (λ r, negb (isNavigation r))
    (receivedBy toggleLocationServices (handsetDriver 30 ["gps"; "network"] false None true))
  = true.
Proof.
  apply (toggleLocationServices_emulator_no_navigation
           (handsetDriver 30 ["gps"; "network"] false None true)).
  reflexivity.
Defined.

(** [toggleLocationServices_emulator_toggles_gps] on an emulated handset
    whose GPS provider is on. *)
Lemma toggleLocationServices_emulator_toggles_gps_witness :
  receivedBy toggleLocationServices (handsetDriver 30 ["network"; "gps"] false None true) =
    [Bridge GetApiLevel; Ui GetLocationProviders; Ui (ToggleGPSLocationProvider false)].
Proof.
  pose (h := device (adb (handsetDriver 30 ["network"; "gps"] false None true))).
  assert (Hemu : isEmulator (handsetDriver 30 ["network"; "gps"] false None true) = true)
    by reflexivity.
  assert (Hapi : respond GetApiLevel h = (Ret 30, h)) by reflexivity.
  assert (Hps : operate GetLocationProviders h = (Ret ["network"; "gps"], h))
    by reflexivity.
  rewrite (toggleLocationServices_emulator_toggles_gps _ 30 h h _ Hemu Hapi Hps).
  rewrite bool_decide_eq_true_2; [reflexivity|].
  apply list_elem_of_In. right. left. reflexivity.
Defined.

(** [toggleLocationServices_old_device] on a real handset of API level
    15. *)
Lemma toggleLocationServices_old_device_witness :
  let w := handsetDriver 15 ["gps"] false None false in
  (toggleLocationServices w).1 = Throw NotYetImplementedError ∧
  receivedBy toggleLocationServices w = [Bridge GetApiLevel].
Proof.
  intros w.
  eapply (toggleLocationServices_old_device w 15).
  - reflexivity.
  - vm_compute. reflexivity.
  - lia.
Defined.

(** [toggleSetting_without_keys] on a handset. *)
Lemma toggleSetting_without_keys_witness :
  let w := handsetDriver 30 ["gps"] false None false in
  (toggleSetting "LOCATION_SOURCE_SETTINGS" KeysUndefined w).1 =
    Throw (TypeError "preKeySeq is not iterable") ∧
  receivedBy (toggleSetting "LOCATION_SOURCE_SETTINGS" KeysUndefined) w =
    [Ui (OpenSettingsActivity "LOCATION_SOURCE_SETTINGS")].
Proof.
  intros w.
  eapply (toggleSetting_without_keys "LOCATION_SOURCE_SETTINGS" w).
  vm_compute. reflexivity.
Defined.

(** [toggleSetting_handset_receives] for [null] on a handset that shows
    no pop-up. *)
Lemma toggleSetting_handset_receives_witness :
  let w := handsetDriver 30 ["gps"] false None false in
  (toggleSetting "WIFI_SETTINGS" KeysNull w).1 = Ret tt ∧
  keysOf (receivedBy (toggleSetting "WIFI_SETTINGS" KeysNull) w) = [19; 19; 20; 23].
Proof.
  intros w.
  destruct (toggleSetting_handset_receives "WIFI_SETTINGS" KeysNull
              [KeyCode.UP; KeyCode.UP; KeyCode.DOWN] w) as [Hr Hk].
  - right. split; reflexivity.
  - split; [exact Hr|]. rewrite Hk. vm_compute. reflexivity.
Defined.

(** [toggleLocationServices_handset_keys] on a real handset of API level
    27 that shows the pop-up. *)
Lemma toggleLocationServices_handset_keys_witness :
  let w := handsetDriver 27 ["gps"] true None false in
  (toggleLocationServices w).1 = Ret tt ∧
  keysOf (receivedBy toggleLocationServices w) = [19; 22; 22; 19; 23; 22; 23].
Proof.
  intros w.
  destruct (toggleLocationServices_handset_keys w) as [Hr Hk].
  - reflexivity.
  - reflexivity.
  - split; [exact Hr|]. rewrite Hk. vm_compute. reflexivity.
Defined.
